(** * Token accounting of mcp-agent: the usage query tool and the progress display

    A shallow embedding of

    - [examples/mcp_agent_server/asyncio/basic_agent_server.py]
      (the tool [get_workflow_token_usage] and its local traversal
      [collect_model_usage]), and
    - [src/mcp_agent/logging/token_progress_display.py]
      (the class [TokenProgressDisplay]).

    Python integers are unbounded and are modelled by [Z]; [str] by [string];
    [Optional[T]] by [option T].  A Python [dict] that is iterated is an
    insertion-ordered association list ([PyDict]); a [dict] that is only
    looked up is a [gmap]. *)

From stdpp Require Import gmap strings list fin_maps.
From Stdlib Require Import ZArith Ascii DecimalString.

Local Open Scope Z_scope.
Local Open Scope string_scope.
Local Open Scope list_scope.

(** ** Python values *)

(** Truthiness of an [Optional[str]]: [None] and the empty string are falsy. *)
Definition str_truthy (s : option string) : bool :=
  match s with
  | None => false
  | Some s => negb (String.eqb s "")
  end.

(** ** Insertion-ordered dictionaries *)

Module PyDict.
Section dict.
Context {K V : Type} `{EqDecision K}.

Definition t := list (K * V).

Definition empty : t := [].

(** [d.get(k)] *)
Fixpoint get (k : K) (d : t) : option V :=
  match d with
  | [] => None
  | (k', v) :: d' => if decide (k = k') then Some v else get k d'
  end.

(** [k in d] *)
Definition mem (k : K) (d : t) : bool :=
  match get k d with Some _ => true | None => false end.

(** [d[k] = v]: an existing key keeps its position, a new key goes last. *)
Fixpoint set (k : K) (v : V) (d : t) : t :=
  match d with
  | [] => [(k, v)]
  | (k', v') :: d' =>
      if decide (k = k') then (k, v) :: d' else (k', v') :: set k v d'
  end.

Definition keys (d : t) : list K := d.*1.
End dict.
Arguments t : clear implicits.
End PyDict.

(** ** The usage tree

    [TokenUsage], [TokenNode] and [ModelInfo] are declared in
    [mcp_agent.tracing.token_counter]; the fields below are the ones the two
    embedded files read. *)

Record ModelInfo := { provider : option string }.

Record TokenUsage := {
  input_tokens : Z;
  output_tokens : Z;
  total_tokens : Z;
  model_name : option string;
  model_info : option ModelInfo;
}.

#[local] Unset Elimination Schemes.
Inductive TokenNode := mkTokenNode {
  name : string;
  node_type : string;
  metadata : gmap string string;
  usage : TokenUsage;
  children : list TokenNode;
}.
#[local] Set Elimination Schemes.

(** Every node of a subtree, in the order the traversals visit them. *)
Fixpoint nodes (node : TokenNode) : list TokenNode :=
  node :: concat (map nodes (children node)).

(** ** [collect_model_usage] (basic_agent_server.py, lines 257-288) *)

Abbreviation ModelKey := (string * option string)%type.

(** The inner dictionaries stored in [model_usage]. *)
Module ModelUsage.
Record t := mk {
  model_name : string;
  provider : option string;
  input_tokens : Z;
  output_tokens : Z;
  total_tokens : Z;
}.
End ModelUsage.

(** [node.usage.model_info.provider if node.usage.model_info else None] *)
Definition usage_provider (u : TokenUsage) : option string :=
  match model_info u with
  | Some info => provider info
  | None => None
  end.

(** The entry created under a key that is not yet in [model_usage]. *)
Definition fresh_entry (model_key : ModelKey) : ModelUsage.t :=
  ModelUsage.mk model_key.1 model_key.2 0 0 0.

(** The three [+=] statements. *)
Definition add_usage (e : ModelUsage.t) (u : TokenUsage) : ModelUsage.t :=
  ModelUsage.mk (ModelUsage.model_name e) (ModelUsage.provider e)
    (ModelUsage.input_tokens e + input_tokens u)
    (ModelUsage.output_tokens e + output_tokens u)
    (ModelUsage.total_tokens e + total_tokens u).

(** The body of [collect_model_usage] before the loop over the children. *)
Definition collect_own_usage (node : TokenNode)
    (model_usage : PyDict.t ModelKey ModelUsage.t) : PyDict.t ModelKey ModelUsage.t :=
  if str_truthy (model_name (usage node)) then
    match model_name (usage node) with
    | Some model_name =>
        let provider := usage_provider (usage node) in
        let model_key := (model_name, provider) in
        let model_usage :=
          if negb (PyDict.mem model_key model_usage)
          then PyDict.set model_key (fresh_entry model_key) model_usage
          else model_usage in
        match PyDict.get model_key model_usage with
        | Some e => PyDict.set model_key (add_usage e (usage node)) model_usage
        | None => model_usage
        end
    | None => model_usage
    end
  else model_usage.

(** [model_usage] is the dictionary captured by the closure; it is threaded
    through the recursion.  The interpreter's bound on the depth of the
    recursion is left out. *)
Fixpoint collect_model_usage (node : TokenNode)
    (model_usage : PyDict.t ModelKey ModelUsage.t) : PyDict.t ModelKey ModelUsage.t :=
  foldl (fun acc child => collect_model_usage child acc)
        (collect_own_usage node model_usage) (children node).

(** ** What the two files use and do not define *)

(** Costs are Python floats.  [round4] is the builtin [round(x, 4)] and
    [format_4f] the format specification [.4f]; no float is produced or
    combined by the embedded code, so the type stays abstract. *)
Class PyFloat (float : Type) := {
  round4 : float -> float;
  format_4f : float -> string;
}.

(** [TokenNode.to_dict] is called once and its value is passed through. *)
Class TokenNodeOps (UsageTree : Type) := {
  to_dict : TokenNode -> UsageTree;
}.

(** The summary read by the display: [summary.usage] and [summary.cost]. *)
Module TokenSummary.
Record t (float : Type) := mk { usage : TokenUsage; cost : float }.
Arguments mk {float}.
Arguments usage {float}.
Arguments cost {float}.
End TokenSummary.

(** The callbacks handed to [watch]: the display registers its bound method
    [_on_token_update]. *)
Inductive Callback := bound_on_token_update.

(** The keyword arguments of a [watch] call. *)
Module WatchArgs.
Record t := mk {
  callback : Callback;
  node : TokenNode;
  threshold : Z;
  throttle_ms : Z;
}.
End WatchArgs.

(** The methods and the attribute of [TokenCounter] that are used; the class
    is defined in [mcp_agent/tracing/token_counter.py].  The counter is a
    mutable object: [watch] and [unwatch] return its next state, the other
    methods only read it.  [_root] is [None] also when the attribute is
    missing.  The methods are taken to return. *)
Class TokenCounterOps (TokenCounter float WatchId : Type) := {
  _root : TokenCounter -> option TokenNode;
  get_workflow_node :
    TokenCounter -> option string -> option string -> option string ->
    option TokenNode;
  _calculate_node_cost : TokenCounter -> TokenNode -> float;
  calculate_cost :
    TokenCounter -> string -> Z -> Z -> option string -> float;
  get_summary : TokenCounter -> TokenSummary.t float;
  watch : TokenCounter -> WatchArgs.t -> WatchId * TokenCounter;
  unwatch : TokenCounter -> WatchId -> TokenCounter;
}.

(** Modelled from the spec: the sum of two usage records, which
    [aggregate_usage] forms; it adds each of the three counters, and an
    aggregate names no model. *)
Definition usage_sum (a b : TokenUsage) : TokenUsage :=
  {| input_tokens := input_tokens a + input_tokens b;
     output_tokens := output_tokens a + output_tokens b;
     total_tokens := total_tokens a + total_tokens b;
     model_name := None;
     model_info := None |}.

(** Modelled from the spec: the usage recorded at the node itself ("own_usage"),
    as the record an aggregate starts from. *)
Definition own_usage (node : TokenNode) : TokenUsage :=
  {| input_tokens := input_tokens (usage node);
     output_tokens := output_tokens (usage node);
     total_tokens := total_tokens (usage node);
     model_name := None;
     model_info := None |}.

(** Modelled from the spec: [TokenNode.aggregate_usage] is defined in
    [mcp_agent/tracing/token_counter.py], which is not among the embedded
    files.  Spec 4.1: it "recursively sums own_usage and
    aggregate_usage(child) for every child". *)
Fixpoint aggregate_usage (node : TokenNode) : TokenUsage :=
  foldl (fun total child => usage_sum total (aggregate_usage child))
        (own_usage node) (children node).

(** ** [get_workflow_token_usage] (basic_agent_server.py, lines 210-304) *)

Module ToolResult.
Record workflow := mk_workflow {
  name : string;
  run_id : option string;
  workflow_id : option string;
}.

Record usage := mk_usage {
  input_tokens : Z;
  output_tokens : Z;
  total_tokens : Z;
}.

(** [{**usage, "cost": ...}] *)
Record model_entry (float : Type) := mk_model_entry {
  model_usage : ModelUsage.t;
  model_cost : float;
}.
Arguments mk_model_entry {float}.
Arguments model_usage {float}.
Arguments model_cost {float}.

Inductive t (float UsageTree : Type) :=
| Error (error message : string)
| Report (workflow : workflow) (usage : usage) (cost : float)
         (model_breakdown : PyDict.t string (model_entry float))
         (usage_tree : UsageTree).
Arguments Error {float UsageTree}.
Arguments Report {float UsageTree}.
End ToolResult.

(** [str(x)] of an [Optional[str]], as an f-string field renders it. *)
Definition py_str (s : option string) : string :=
  match s with
  | None => "None"
  | Some s => s
  end.

(** [f"{model_name} ({provider})" if provider else model_name] *)
Definition display_key (model_name : string) (provider : option string) : string :=
  if str_truthy provider
  then model_name +:+ " (" +:+ py_str provider +:+ ")"
  else model_name.

Section QueryTool.
Context {TokenCounter float WatchId UsageTree : Type}.
Context `{!PyFloat float} `{!TokenNodeOps UsageTree}.
Context `{!TokenCounterOps TokenCounter float WatchId}.

(** The loop over [model_usage.items()], one step. *)
Definition add_model_breakdown (token_counter : TokenCounter)
    (model_breakdown : PyDict.t string (ToolResult.model_entry float))
    (item : ModelKey * ModelUsage.t)
    : PyDict.t string (ToolResult.model_entry float) :=
  let '((model_name, provider), usage) := item in
  let cost :=
    calculate_cost token_counter model_name
      (ModelUsage.input_tokens usage) (ModelUsage.output_tokens usage)
      provider in
  PyDict.set (display_key model_name provider)
    (ToolResult.mk_model_entry usage (round4 cost)) model_breakdown.

(** [context.token_counter] is [None] when token tracking is off. *)
Definition get_workflow_token_usage (token_counter : option TokenCounter)
    (workflow_id run_id workflow_name : option string)
    : ToolResult.t float UsageTree :=
  match token_counter with
  | None =>
      ToolResult.Error "Token counter not available"
        "Token tracking is not enabled for this application"
  | Some token_counter =>
      match get_workflow_node token_counter workflow_name workflow_id run_id with
      | None =>
          ToolResult.Error "Workflow not found"
            ("Could not find workflow with run_id='" +:+ py_str run_id +:+ "'")
      | Some workflow_node =>
          let workflow_usage := aggregate_usage workflow_node in
          let workflow_cost := _calculate_node_cost token_counter workflow_node in
          let model_usage := collect_model_usage workflow_node PyDict.empty in
          ToolResult.Report
            (ToolResult.mk_workflow (name workflow_node)
               (metadata workflow_node !! "run_id")
               (metadata workflow_node !! "workflow_id"))
            (ToolResult.mk_usage (input_tokens workflow_usage)
               (output_tokens workflow_usage)
               (total_tokens workflow_usage))
            (round4 workflow_cost)
            (foldl (add_model_breakdown token_counter) PyDict.empty model_usage)
            (to_dict workflow_node)
      end
  end.
End QueryTool.

(** ** The progress widget

    [rich.progress.Progress] is a third-party widget.  The model keeps what
    the display's methods read or change: whether the live view is running,
    the tasks with their visibility and the three custom fields, and the
    index of the next task. *)
Module Progress.
Record task := mk_task {
  id : nat;
  visible : bool;
  node_info : string;
  tokens : string;
  cost : string;
}.

Record t := mk {
  started : bool;
  tasks : list task;
  _task_index : nat;
}.

(** [Progress(...)] *)
Definition new : t := mk false [] 0.

(** [start()] and [stop()] do nothing on a view already in that state. *)
Definition start (p : t) : t := mk true (tasks p) (_task_index p).
Definition stop (p : t) : t := mk false (tasks p) (_task_index p).

(** [add_task("", total=None, node_info=.., tokens=.., cost=..)] *)
Definition add_task (node_info tokens cost : string) (p : t) : nat * t :=
  let new_id := _task_index p in
  (new_id,
   mk (started p)
      (tasks p ++ [mk_task new_id true node_info tokens cost])
      (S new_id)).

(** [task.visible = v] for every task of [tasks]. *)
Definition set_all_visible (v : bool) (p : t) : t :=
  mk (started p)
     (map (fun k => mk_task (id k) v (node_info k) (tokens k) (cost k)) (tasks p))
     (_task_index p).

Definition has_task (task_id : nat) (p : t) : bool :=
  existsb (fun k => Nat.eqb (id k) task_id) (tasks p).

(** [update(task_id, node_info=.., tokens=.., cost=..)]; an unknown task id
    (also [None]) raises [KeyError], shown as [None]. *)
Definition update (task_id : option nat) (node_info tokens cost : string)
    (p : t) : option t :=
  match task_id with
  | Some i =>
      if has_task i p then
        Some (mk (started p)
                (map (fun k =>
                        if Nat.eqb (id k) i
                        then mk_task (id k) (visible k) node_info tokens cost
                        else k) (tasks p))
                (_task_index p))
      else None
  | None => None
  end.
End Progress.

(** ** Control flow: exceptions and scopes *)

(** How a block of statements ends. *)
Inductive outcome (A : Type) :=
| Returned (value : A)
| Raised (exception : string).
Arguments Returned {A}.
Arguments Raised {A}.

(** [try: body finally: final], for a [final] that does not raise: it runs on
    every way out of the body, and the body's outcome is passed on. *)
Definition try_finally {S A : Type} (body : S -> outcome A * S)
    (final : S -> S) (s : S) : outcome A * S :=
  let '(result, s) := body s in
  (result, final s).

(** [with manager: body], for a manager whose [__enter__] does not raise and
    whose [__exit__] does not raise and returns [None]. *)
Definition with_scope {S A : Type} (enter exit : S -> S)
    (body : S -> outcome A * S) (s : S) : outcome A * S :=
  try_finally body exit (enter s).

(** ** [TokenProgressDisplay] (token_progress_display.py) *)

(** The calls received by the token counter. *)
Inductive CounterCall (WatchId : Type) :=
| CallWatch (args : WatchArgs.t)
| CallUnwatch (watch_id : WatchId).
Arguments CallWatch {WatchId}.
Arguments CallUnwatch {WatchId}.

(** The object's attributes.  [token_counter] holds the state of the counter
    the display refers to; [calls] is not an attribute: it records, in order,
    the calls of [watch] and [unwatch] made so far. *)
Module Display.
Record t (TokenCounter WatchId : Type) := mk {
  token_counter : TokenCounter;
  _taskmap : gmap string nat;
  _watch_ids : list WatchId;
  _progress : Progress.t;
  _paused : bool;
  _total_task_id : option nat;
  calls : list (CounterCall WatchId);
}.
Arguments mk {TokenCounter WatchId}.
Arguments token_counter {TokenCounter WatchId}.
Arguments _taskmap {TokenCounter WatchId}.
Arguments _watch_ids {TokenCounter WatchId}.
Arguments _progress {TokenCounter WatchId}.
Arguments _paused {TokenCounter WatchId}.
Arguments _total_task_id {TokenCounter WatchId}.
Arguments calls {TokenCounter WatchId}.
End Display.

(** [f"{tokens:,}"]: decimal digits in groups of three. *)
Fixpoint thousands (rev_digits : list ascii) : list ascii :=
  match rev_digits with
  | a :: b :: c :: (_ :: _) as rest => a :: b :: c :: ","%char :: thousands rest
  | _ => rev_digits
  end.

Definition group_digits (digits : string) : string :=
  String.string_of_list_ascii
    (rev (thousands (rev (String.list_ascii_of_string digits)))).

Definition _format_tokens (tokens : Z) : string :=
  (if (tokens <? 0)%Z then "-" else "") +:+
  group_digits (NilZero.string_of_uint (N.to_uint (Z.abs_N tokens))).

(** The keyword arguments of the [update] call of [_on_token_update]. *)
Module ProgressUpdate.
Record t := mk {
  task_id : option nat;
  node_info : string;
  tokens : string;
  cost : string;
}.
End ProgressUpdate.

Section DisplayMethods.
Context {TokenCounter float WatchId : Type}.
Context `{!PyFloat float} `{!TokenCounterOps TokenCounter float WatchId}.

Abbreviation display := (Display.t TokenCounter WatchId).

Definition __init__ (token_counter : TokenCounter) : display :=
  Display.mk token_counter ∅ [] Progress.new false None [].

(** Assignment to [self._progress]'s state and to [self._paused]. *)
Definition set_progress (p : Progress.t) (self : display) : display :=
  Display.mk (Display.token_counter self) (Display._taskmap self)
    (Display._watch_ids self) p (Display._paused self)
    (Display._total_task_id self) (Display.calls self).

Definition set_paused (b : bool) (self : display) : display :=
  Display.mk (Display.token_counter self) (Display._taskmap self)
    (Display._watch_ids self) (Display._progress self) b
    (Display._total_task_id self) (Display.calls self).

Definition start (self : display) : display :=
  let progress := Progress.start (Display._progress self) in
  let '(total_task_id, progress) :=
    Progress.add_task "[bold]TOTAL" "0" "$0.0000" progress in
  match _root (Display.token_counter self) with
  | Some root =>
      let args := WatchArgs.mk bound_on_token_update root 1 100 in
      let '(watch_id, token_counter) := watch (Display.token_counter self) args in
      Display.mk token_counter (Display._taskmap self)
        (Display._watch_ids self ++ [watch_id]) progress
        (Display._paused self) (Some total_task_id)
        (Display.calls self ++ [CallWatch args])
  | None =>
      Display.mk (Display.token_counter self) (Display._taskmap self)
        (Display._watch_ids self) progress
        (Display._paused self) (Some total_task_id) (Display.calls self)
  end.

Definition stop (self : display) : display :=
  let token_counter :=
    foldl unwatch (Display.token_counter self) (Display._watch_ids self) in
  Display.mk token_counter (Display._taskmap self) []
    (Progress.stop (Display._progress self)) (Display._paused self)
    (Display._total_task_id self)
    (Display.calls self ++ map CallUnwatch (Display._watch_ids self)).

Definition pause (self : display) : display :=
  if negb (Display._paused self) then
    let self := set_paused true self in
    let self :=
      set_progress (Progress.set_all_visible false (Display._progress self)) self in
    set_progress (Progress.stop (Display._progress self)) self
  else self.

Definition resume (self : display) : display :=
  if Display._paused self then
    let self :=
      set_progress (Progress.set_all_visible true (Display._progress self)) self in
    let self := set_paused false self in
    set_progress (Progress.start (Display._progress self)) self
  else self.

(** The context manager [paused()]. *)
Definition paused {A : Type} (body : display -> outcome A * display)
    (self : display) : outcome A * display :=
  try_finally body resume (pause self).

Definition _format_cost (cost : float) : string := "$" +:+ format_4f cost.

(** The arguments [_on_token_update] passes to [update]; [node] and [usage]
    are its two parameters. *)
Definition token_update_args (self : display) (node : TokenNode)
    (usage : TokenUsage) : ProgressUpdate.t :=
  let summary := get_summary (Display.token_counter self) in
  ProgressUpdate.mk (Display._total_task_id self) "[bold]TOTAL"
    (_format_tokens (total_tokens (TokenSummary.usage summary)))
    (_format_cost (TokenSummary.cost summary)).

Definition _on_token_update (self : display) (node : TokenNode)
    (usage : TokenUsage) : outcome unit * display :=
  let args := token_update_args self node usage in
  match Progress.update (ProgressUpdate.task_id args)
          (ProgressUpdate.node_info args) (ProgressUpdate.tokens args)
          (ProgressUpdate.cost args) (Display._progress self) with
  | Some progress => (Returned tt, set_progress progress self)
  | None => (Raised "KeyError", self)
  end.

Definition __enter__ (self : display) : display := start self.

Definition __exit__ (self : display) : display := stop self.

(** [with display: body] *)
Definition with_display {A : Type} (body : display -> outcome A * display)
    (self : display) : outcome A * display :=
  with_scope __enter__ __exit__ body self.
End DisplayMethods.

(** ** Vocabulary of the statements *)

(** The key under which a node is counted, if it is counted. *)
Definition model_key_of (u : TokenUsage) : option ModelKey :=
  if str_truthy (model_name u)
  then (fun m => (m, usage_provider u)) <$> model_name u
  else None.

(** A node whose usage names model [k.1] and provider [k.2]. *)
Definition carries (k : ModelKey) (node : TokenNode) : Prop :=
  model_name (usage node) = Some k.1 /\ usage_provider (usage node) = k.2.

#[local] Instance carries_dec k node : Decision (carries k node).
Proof. unfold carries. apply _. Defined.

(** Sum of one counter over the own usage of a list of nodes. *)
Definition sum_of (f : TokenUsage -> Z) (l : list TokenNode) : Z :=
  foldr (fun node acc => f (usage node) + acc) 0 l.

Definition add_usages (e : ModelUsage.t) (l : list TokenNode) : ModelUsage.t :=
  foldl (fun e node => add_usage e (usage node)) e l.

Definition expected_entry (k : ModelKey) (l : list TokenNode) : ModelUsage.t :=
  ModelUsage.mk k.1 k.2
    (sum_of input_tokens l) (sum_of output_tokens l) (sum_of total_tokens l).

(** Sum of one counter over the aggregates of a list of nodes. *)
Definition sum_aggregates (f : TokenUsage -> Z) (l : list TokenNode) : Z :=
  foldr (fun node acc => f (aggregate_usage node) + acc) 0 l.

(** A usage record whose total is the sum of its two counters. *)
Definition usage_consistent (u : TokenUsage) : Prop :=
  total_tokens u = input_tokens u + output_tokens u.

Definition entry_consistent (e : ModelUsage.t) : Prop :=
  ModelUsage.total_tokens e =
  ModelUsage.input_tokens e + ModelUsage.output_tokens e.

(** ** A sample session

    A concrete counter, price list and tree on which the definitions above
    are run. *)

(** The floats of the sample, for finite values whose magnitude stays far
    below 2^53 / 10^4.  [binary s m e] is the float with sign [s] and magnitude
    [m * 2^e], held exactly; [decimal4 s k] is the float nearest to
    [k / 10^4], which is the float that [round(x, 4)] returns.  [round(x, 4)]
    and the format [.4f] round the exact value of the float to a whole number
    of ten-thousandths, ties to even, and keep its sign, also on zero.  Two
    values may stand for the same float. *)
Module SampleFloat.
Local Open Scope Z_scope.

Inductive t :=
| binary (negative : bool) (mantissa : N) (exponent : Z)
| decimal4 (negative : bool) (units : N).

Definition negative (x : t) : bool :=
  match x with
  | binary s _ _ => s
  | decimal4 s _ => s
  end.

(** Nearest quotient, ties to the even one. *)
Definition div_half_even (x d : Z) : Z :=
  let q := x / d in
  let r := x mod d in
  if 2 * r <? d then q
  else if d <? 2 * r then q + 1
  else if Z.even q then q else q + 1.

(** The magnitude in ten-thousandths, rounded. *)
Definition ten_thousandths (x : t) : N :=
  match x with
  | binary _ m e =>
      if 0 <=? e then Z.to_N (Z.of_N m * 10000 * 2 ^ e)
      else Z.to_N (div_half_even (Z.of_N m * 10000) (2 ^ (- e)))
  | decimal4 _ k => k
  end.

Definition decimal (n : N) : string :=
  NilZero.string_of_uint (N.to_uint n).

Definition pad4 (digits : string) : string :=
  String.substring 0 (4 - String.length digits)%nat "0000" +:+ digits.

Definition round4 (x : t) : t := decimal4 (negative x) (ten_thousandths x).

Definition format_4f (x : t) : string :=
  let k := ten_thousandths x in
  (if negative x then "-" else "") +:+
  decimal (k / 10000)%N +:+ "." +:+ pad4 (decimal (k mod 10000)%N).

(** The float [z * 2^e] for an integer [z]. *)
Definition scaled (z e : Z) : t := binary (z <? 0) (Z.abs_N z) e.
End SampleFloat.

#[export] Instance SampleFloat_float : PyFloat SampleFloat.t :=
  {| round4 := SampleFloat.round4; format_4f := SampleFloat.format_4f |}.

(** Modelled from the spec: the watch registry, the lookup and the cost of the
    accounting engine ([mcp_agent/tracing/token_counter.py] is not among the
    embedded files).  Spec 4.3: [watch] "registers immediately" and returns a
    subscription id, [unwatch] "removes the subscription"; spec 7: [unwatch]
    of an unknown id "is a no-op, not an error".  Spec 4.2: a lookup by
    [run_id] is exact, one by name takes the most recent match, and a miss
    is an absent result; [get_summary] is the aggregate and the cost at the
    root.  Spec 4.4: cost is input units times input rate plus output units
    times output rate; the sample has one price for every model, a whole
    number of 2^-18 dollars per unit, so that the products and the sum are
    exact in floating point for the counts of the sample. *)
Module SampleCounter.
Record t := mk {
  root : option TokenNode;
  subscriptions : gmap nat WatchArgs.t;
  next_id : nat;
  input_rate : Z;
  output_rate : Z;
}.

Definition calculate_cost (c : t) (model_name : string)
    (input_tokens output_tokens : Z) (provider : option string)
    : SampleFloat.t :=
  SampleFloat.scaled
    (input_tokens * input_rate c + output_tokens * output_rate c) (-18).

Definition node_cost (c : t) (node : TokenNode) : SampleFloat.t :=
  let total := aggregate_usage node in
  SampleFloat.scaled
    (input_tokens total * input_rate c + output_tokens total * output_rate c)
    (-18).

Definition matches (workflow_name workflow_id run_id : option string)
    (node : TokenNode) : bool :=
  match run_id, workflow_name, workflow_id with
  | Some r, _, _ => bool_decide (metadata node !! "run_id" = Some r)
  | None, Some n, Some w =>
      bool_decide (name node = n) &&
      bool_decide (metadata node !! "workflow_id" = Some w)
  | None, Some n, None => bool_decide (name node = n)
  | None, None, _ => false
  end.

Definition get_workflow_node (c : t)
    (workflow_name workflow_id run_id : option string) : option TokenNode :=
  match root c with
  | Some r =>
      last (List.filter (matches workflow_name workflow_id run_id) (nodes r))
  | None => None
  end.

Definition get_summary (c : t) : TokenSummary.t SampleFloat.t :=
  match root c with
  | Some r => TokenSummary.mk (aggregate_usage r) (node_cost c r)
  | None =>
      TokenSummary.mk (Build_TokenUsage 0 0 0 None None) (SampleFloat.scaled 0 0)
  end.

Definition watch (c : t) (args : WatchArgs.t) : nat * t :=
  (next_id c,
   mk (root c) (<[next_id c := args]> (subscriptions c)) (S (next_id c))
      (input_rate c) (output_rate c)).

Definition unwatch (c : t) (watch_id : nat) : t :=
  mk (root c) (delete watch_id (subscriptions c)) (next_id c)
     (input_rate c) (output_rate c).
End SampleCounter.

#[export] Instance SampleCounter_ops :
    TokenCounterOps SampleCounter.t SampleFloat.t nat :=
  {| _root := SampleCounter.root;
     get_workflow_node := SampleCounter.get_workflow_node;
     _calculate_node_cost := SampleCounter.node_cost;
     calculate_cost := SampleCounter.calculate_cost;
     get_summary := SampleCounter.get_summary;
     watch := SampleCounter.watch;
     unwatch := SampleCounter.unwatch |}.

(** The sample serialises a node to its name and aggregate total. *)
#[local] Unset Elimination Schemes.
Inductive SampleTree :=
  sample_tree (name : string) (total : Z) (children : list SampleTree).
#[local] Set Elimination Schemes.

Fixpoint sample_to_dict (node : TokenNode) : SampleTree :=
  sample_tree (name node) (total_tokens (aggregate_usage node))
    (map sample_to_dict (children node)).

#[export] Instance SampleTree_ops : TokenNodeOps SampleTree :=
  {| to_dict := sample_to_dict |}.

Module Sample.
Definition no_usage : TokenUsage := Build_TokenUsage 0 0 0 None None.

Definition llm_usage (input output : Z) (model provider : string) : TokenUsage :=
  Build_TokenUsage input output (input + output) (Some model)
    (Some (Build_ModelInfo (Some provider))).

Definition call_1 : TokenNode :=
  mkTokenNode "llm_call_1" "llm" ∅
    (llm_usage 100 50 "claude-sonnet" "anthropic") [].

Definition call_2 : TokenNode :=
  mkTokenNode "llm_call_2" "llm" ∅ (llm_usage 200 80 "gpt-4o" "openai") [].

Definition finder : TokenNode :=
  mkTokenNode "finder" "agent" ∅ no_usage [call_1; call_2].

Definition run : TokenNode :=
  mkTokenNode "R1" "workflow"
    (<["run_id" := "run-123"]> (<["workflow_id" := "BasicAgentWorkflow"]> ∅))
    no_usage [finder].

(** The price list of the sample: 2^-18 dollar per input unit and 2^-16
    dollar per output unit. *)
Definition counter : SampleCounter.t := SampleCounter.mk (Some run) ∅ 0 1 4.

(** A counter on which nothing has been recorded yet. *)
Definition rootless : SampleCounter.t := SampleCounter.mk None ∅ 0 1 4.
End Sample.

Section display_vocabulary.
Context {TokenCounter WatchId : Type}.
Implicit Types (self before after : Display.t TokenCounter WatchId).

(** Between [before] and [after] the counter received one call, a [watch],
    and one subscription id was appended to the list of the display. *)
Definition registers_one_watch before after : Prop :=
  exists args watch_id,
    Display.calls after = Display.calls before ++ [CallWatch args] /\
    Display._watch_ids after = Display._watch_ids before ++ [watch_id].

(** What is on screen: the pause flag, whether the live view runs, and the
    visibility of each task. *)
Definition visibility self : bool * bool * list bool :=
  (Display._paused self,
   Progress.started (Display._progress self),
   map Progress.visible (Progress.tasks (Display._progress self))).
End display_vocabulary.

Section cost_vocabulary.
Context {TokenCounter float WatchId : Type}.
Context `{!PyFloat float} `{!TokenCounterOps TokenCounter float WatchId}.

(** Where an entry of the breakdown comes from. *)
Definition presented_from (token_counter : TokenCounter)
    (items : PyDict.t ModelKey ModelUsage.t)
    (key : string) (entry : ToolResult.model_entry float) : Prop :=
  exists model_name provider usage,
    ((model_name, provider), usage) ∈ items /\
    key = display_key model_name provider /\
    entry =
      ToolResult.mk_model_entry usage
        (round4 (calculate_cost token_counter model_name
                   (ModelUsage.input_tokens usage)
                   (ModelUsage.output_tokens usage) provider)).
End cost_vocabulary.

Module SampleRun.
(** A block that does nothing and one that fails at once. *)
Definition pass (self : Display.t SampleCounter.t nat)
    : outcome unit * Display.t SampleCounter.t nat :=
  (Returned tt, self).

Definition fail (self : Display.t SampleCounter.t nat)
    : outcome unit * Display.t SampleCounter.t nat :=
  (Raised "RuntimeError", self).

Definition display : Display.t SampleCounter.t nat := __init__ Sample.counter.

Definition rootless_display : Display.t SampleCounter.t nat :=
  __init__ Sample.rootless.
End SampleRun.


From Stdlib Require DecimalPos DecimalN.

(** ** Reading a formatted count *)

(** The decimal numeral of an integer, as [str(n)] prints it. *)
Definition plain_decimal (n : Z) : string :=
  (if (n <? 0)%Z then "-" else "") +:+
  NilZero.string_of_uint (N.to_uint (Z.abs_N n)).

Definition is_comma (c : ascii) : bool := Ascii.eqb c ","%char.

Definition is_digit (c : ascii) : bool :=
  (48 <=? nat_of_ascii c)%nat && (nat_of_ascii c <=? 57)%nat.

(** [s.replace(",", "")] *)
Definition strip_commas (s : string) : string :=
  String.string_of_list_ascii
    (List.filter (fun c => negb (is_comma c)) (String.list_ascii_of_string s)).

(** [int(s.replace(",", ""))], for an optional minus sign followed by
    digits. *)
Definition parse_count (s : string) : option Z :=
  match strip_commas s with
  | String "-" digits =>
      (fun d => - Z.of_N (N.of_uint d)) <$> NilZero.uint_of_string digits
  | digits => (fun d => Z.of_N (N.of_uint d)) <$> NilZero.uint_of_string digits
  end.

(** The characters of a string, last one first. *)
Definition chars_from_right (s : string) : list ascii :=
  rev (String.list_ascii_of_string s).

(** ** The rows of the model breakdown *)

Section breakdown_vocabulary.
Context {TokenCounter float WatchId : Type}.
Context `{!PyFloat float} `{!TokenCounterOps TokenCounter float WatchId}.

(** The key and the value that an item of [model_usage] is written under. *)
Definition item_display_key (item : ModelKey * ModelUsage.t) : string :=
  display_key item.1.1 item.1.2.

Definition item_entry (token_counter : TokenCounter)
    (item : ModelKey * ModelUsage.t) : ToolResult.model_entry float :=
  ToolResult.mk_model_entry item.2
    (round4 (calculate_cost token_counter item.1.1
               (ModelUsage.input_tokens item.2)
               (ModelUsage.output_tokens item.2) item.1.2)).

(** The whole loop over [model_usage.items()]. *)
Definition model_breakdown_of (token_counter : TokenCounter)
    (model_usage : PyDict.t ModelKey ModelUsage.t)
    : PyDict.t string (ToolResult.model_entry float) :=
  foldl (add_model_breakdown token_counter) PyDict.empty model_usage.
End breakdown_vocabulary.

(** Sum of one counter over the entries of [model_usage]. *)
Definition sum_entries (f : ModelUsage.t -> Z)
    (model_usage : PyDict.t ModelKey ModelUsage.t) : Z :=
  foldr (fun kv acc => f kv.2 + acc) 0 model_usage.

(** A node that the traversal counts: its usage names a model. *)
Definition names_model (node : TokenNode) : Prop :=
  str_truthy (model_name (usage node)) = true.

#[local] Instance names_model_dec node : Decision (names_model node).
Proof. unfold names_model. apply _. Defined.

(** The elements of a list in the order of their first occurrence. *)
Definition first_occurrences {K : Type} `{EqDecision K} (l : list K) : list K :=
  foldl (fun seen k => if decide (k ∈ seen) then seen else seen ++ [k]) [] l.

(** A run in which the same model is recorded once without model
    information and once with an empty provider name. *)
Module SampleMerge.
Definition call_a : TokenNode :=
  mkTokenNode "llm_call_a" "llm" ∅
    (Build_TokenUsage 10 5 15 (Some "gpt-4o") None) [].

Definition call_b : TokenNode :=
  mkTokenNode "llm_call_b" "llm" ∅
    (Build_TokenUsage 20 7 27 (Some "gpt-4o")
       (Some (Build_ModelInfo (Some "")))) [].

Definition run : TokenNode :=
  mkTokenNode "R2" "workflow" ∅ Sample.no_usage [call_a; call_b].
End SampleMerge.

(** The usage records of [Sample.finder], nested instead of side by side. *)
Module SampleChain.
Definition run : TokenNode :=
  mkTokenNode "outer" "llm" ∅ (usage Sample.call_2)
    [mkTokenNode "middle" "agent" ∅ Sample.no_usage
       [mkTokenNode "inner" "llm" ∅ (usage Sample.call_1) []]].
End SampleChain.

(** ** The rows of the display *)

(** What a row shows, apart from whether it is visible. *)
Definition row_data (p : Progress.t)
    : list (nat * string * string * string) :=
  map (fun k => (Progress.id k, Progress.node_info k, Progress.tokens k,
                 Progress.cost k)) (Progress.tasks p).

(** The display knows its total task: [_total_task_id] is the id of a task
    of the widget. *)
Definition total_task_known {TokenCounter WatchId : Type}
    (self : Display.t TokenCounter WatchId) : Prop :=
  exists i, Display._total_task_id self = Some i /\
            Progress.has_task i (Display._progress self) = true.

(** * Properties *)

(** ** Dictionaries *)

Section dict_facts.
Context {K V : Type} `{EqDecision K}.
Implicit Types (d : PyDict.t K V) (k : K) (v : V).

Lemma get_set d k k' v :
  PyDict.get k' (PyDict.set k v d) =
  if decide (k' = k) then Some v else PyDict.get k' d.
Proof.
  induction d as [|[k0 v0] d IH]; simpl.
  - repeat case_decide; congruence.
  - repeat (case_decide; simpl); try congruence.
Qed.

Lemma get_None_keys d k : PyDict.get k d = None <-> k ∉ PyDict.keys d.
Proof.
  unfold PyDict.keys. induction d as [|[k0 v0] d IH]; simpl.
  - split; [intros _; apply not_elem_of_nil | done].
  - case_decide as Hk.
    + subst. split; [done | intros []; left].
    + rewrite IH, not_elem_of_cons. tauto.
Qed.

Lemma keys_set d k v :
  PyDict.keys (PyDict.set k v d) =
  if PyDict.mem k d then PyDict.keys d else PyDict.keys d ++ [k].
Proof.
  unfold PyDict.keys, PyDict.mem. induction d as [|[k0 v0] d IH]; [done|].
  cbn [PyDict.set PyDict.get]. case_decide; [by subst|].
  rewrite !fmap_cons, IH. by destruct (PyDict.get k d).
Qed.

Lemma NoDup_keys_set d k v :
  NoDup (PyDict.keys d) -> NoDup (PyDict.keys (PyDict.set k v d)).
Proof.
  intros Hd. rewrite keys_set. unfold PyDict.mem.
  destruct (PyDict.get k d) eqn:Hg; [done|].
  apply NoDup_app. split; [done|]. split; [|apply NoDup_singleton].
  intros x Hx ->%list_elem_of_singleton. by apply get_None_keys in Hg.
Qed.
End dict_facts.

(** ** Induction on usage trees *)

Lemma TokenNode_ind (P : TokenNode -> Prop) :
  (forall node, Forall P (children node) -> P node) -> forall node, P node.
Proof.
  intros step. fix IH 1. intros [nm ty md u cs]. apply step. simpl.
  induction cs as [|c cs IHcs]; constructor; [apply IH | exact IHcs].
Qed.

(** ** The traversal as a fold over the visited nodes *)


Lemma collect_model_usage_nodes node d :
  collect_model_usage node d =
  foldl (fun acc x => collect_own_usage x acc) d (nodes node).
Proof.
  revert d. induction node as [node IH] using TokenNode_ind. intros d.
  destruct node as [nm ty md u cs]. simpl in *.
  generalize (collect_own_usage (mkTokenNode nm ty md u cs) d). clear d.
  induction IH as [|c cs Hc _ IHcs]; intros d; simpl; [done|].
  by rewrite foldl_app, <- Hc, IHcs.
Qed.

Lemma collect_own_usage_key node d :
  collect_own_usage node d =
  match model_key_of (usage node) with
  | Some k =>
      PyDict.set k
        (add_usage (default (fresh_entry k) (PyDict.get k d)) (usage node))
        (if PyDict.mem k d then d else PyDict.set k (fresh_entry k) d)
  | None => d
  end.
Proof.
  unfold collect_own_usage, model_key_of.
  destruct (str_truthy _) eqn:Ht; [|done].
  destruct (model_name (usage node)) as [m|]; [|done]. simpl.
  unfold PyDict.mem.
  destruct (PyDict.get (m, usage_provider (usage node)) d) eqn:Hg; simpl.
  - by rewrite Hg.
  - rewrite get_set. by case_decide.
Qed.

Lemma get_collect_own_usage node d k :
  PyDict.get k (collect_own_usage node d) =
  if decide (model_key_of (usage node) = Some k)
  then Some (add_usage (default (fresh_entry k) (PyDict.get k d)) (usage node))
  else PyDict.get k d.
Proof.
  rewrite collect_own_usage_key.
  destruct (model_key_of (usage node)) as [k0|]; [|by case_decide].
  rewrite get_set. unfold PyDict.mem.
  repeat case_decide; simplify_eq; try done.
  destruct (PyDict.get k0 d) eqn:Hg; [done|].
  rewrite get_set. by case_decide.
Qed.

Lemma NoDup_keys_collect_own_usage node d :
  NoDup (PyDict.keys d) -> NoDup (PyDict.keys (collect_own_usage node d)).
Proof.
  intros Hd. rewrite collect_own_usage_key.
  destruct (model_key_of (usage node)) as [k|]; [|done].
  apply NoDup_keys_set. destruct (PyDict.mem k d); [done|].
  by apply NoDup_keys_set.
Qed.

Lemma get_foldl_collect_own_usage l d k :
  PyDict.get k (foldl (fun acc x => collect_own_usage x acc) d l) =
  match filter (fun node => model_key_of (usage node) = Some k) l with
  | [] => PyDict.get k d
  | ms => Some (add_usages (default (fresh_entry k) (PyDict.get k d)) ms)
  end.
Proof.
  revert d. induction l as [|node l IH]; intros d; simpl; [done|].
  rewrite IH, get_collect_own_usage, filter_cons.
  case_decide as Hk; simpl.
  - by destruct (filter _ l).
  - done.
Qed.

Lemma add_usages_fields e l :
  add_usages e l =
  ModelUsage.mk (ModelUsage.model_name e) (ModelUsage.provider e)
    (ModelUsage.input_tokens e + sum_of input_tokens l)
    (ModelUsage.output_tokens e + sum_of output_tokens l)
    (ModelUsage.total_tokens e + sum_of total_tokens l).
Proof.
  revert e. induction l as [|node l IH]; intros e; simpl.
  - destruct e; simpl. f_equal; lia.
  - unfold add_usages in IH. rewrite IH. simpl. f_equal; lia.
Qed.


Lemma str_truthy_Some m : str_truthy (Some m) = true <-> m <> "".
Proof.
  simpl. rewrite negb_true_iff. apply String.eqb_neq.
Qed.

Lemma model_key_of_Some u k :
  model_key_of u = Some k <->
  (model_name u = Some k.1 /\ usage_provider u = k.2) /\ k.1 <> "".
Proof.
  unfold model_key_of. destruct k as [m p]. simpl.
  destruct (model_name u) as [m'|] eqn:Hm.
  - destruct (str_truthy (Some m')) eqn:Ht; simpl.
    + apply str_truthy_Some in Ht. split.
      * intros [= <- <-]. done.
      * intros [[[= <-] <-] _]. done.
    + split; [done|]. intros [[[= <-] _] Hne].
      apply str_truthy_Some in Hne. congruence.
  - simpl. split; [done|]. by intros [[? _] _].
Qed.

Lemma add_usages_fresh k l :
  add_usages (fresh_entry k) l = expected_entry k l.
Proof. rewrite add_usages_fields. unfold expected_entry. simpl. f_equal; lia. Qed.

(** Lookup in the result of the traversal, in closed form. *)
Lemma get_collect_model_usage node k :
  PyDict.get k (collect_model_usage node PyDict.empty) =
  match filter (fun n => model_key_of (usage n) = Some k) (nodes node) with
  | [] => None
  | ms => Some (expected_entry k ms)
  end.
Proof.
  rewrite collect_model_usage_nodes, get_foldl_collect_own_usage.
  destruct (filter _ (nodes node)) eqn:Hf; [done|].
  change (PyDict.get k PyDict.empty) with (@None ModelUsage.t).
  change (default (fresh_entry k) None) with (fresh_entry k).
  by rewrite add_usages_fresh.
Qed.

Lemma filter_model_key_carries k (l : list TokenNode) :
  k.1 <> "" ->
  filter (fun n => model_key_of (usage n) = Some k) l = filter (carries k) l.
Proof.
  intros Hk. apply list_filter_iff. intros n.
  rewrite model_key_of_Some. unfold carries. tauto.
Qed.

Lemma NoDup_keys_collect_model_usage node :
  NoDup (PyDict.keys (collect_model_usage node PyDict.empty)).
Proof.
  rewrite collect_model_usage_nodes.
  assert (NoDup (PyDict.keys (PyDict.empty (K:=ModelKey) (V:=ModelUsage.t))))
    as H0 by constructor.
  revert H0. generalize (PyDict.empty (K:=ModelKey) (V:=ModelUsage.t)).
  induction (nodes node) as [|n l IH]; intros d Hd; simpl; [done|].
  by apply IH, NoDup_keys_collect_own_usage.
Qed.

(** C1: [collect_model_usage], started on the empty dictionary, returns a
    mapping with one entry per pair (model name, provider): an entry holds,
    counter by counter, the sums over exactly the nodes of the subtree whose
    usage carries that model name and provider, and every node with a model
    name has its entry.  A run with two leaves naming different models gets
    two entries, each holding the counters of its own leaf only. *)
Theorem collect_model_usage_per_model_sums (node : TokenNode) :
  let result := collect_model_usage node PyDict.empty in
  NoDup (PyDict.keys result) /\
  (forall k e,
     PyDict.get k result = Some e ->
     filter (carries k) (nodes node) <> [] /\
     e = expected_entry k (filter (carries k) (nodes node))) /\
  (forall n m,
     n ∈ nodes node -> model_name (usage n) = Some m -> m <> "" ->
     is_Some (PyDict.get (m, usage_provider (usage n)) result)) /\
  (forall l1 l2 m1 m2,
     children node = [l1; l2] -> children l1 = [] -> children l2 = [] ->
     str_truthy (model_name (usage node)) = false ->
     model_name (usage l1) = Some m1 -> model_name (usage l2) = Some m2 ->
     m1 <> "" -> m2 <> "" -> m1 <> m2 ->
     result =
       [((m1, usage_provider (usage l1)),
         expected_entry (m1, usage_provider (usage l1)) [l1]);
        ((m2, usage_provider (usage l2)),
         expected_entry (m2, usage_provider (usage l2)) [l2])]).
Proof.
  intros result. subst result. split; [apply NoDup_keys_collect_model_usage|].
  split; [|split].
  - intros k e. rewrite get_collect_model_usage.
    destruct (filter _ (nodes node)) as [|n ms] eqn:Hf; [done|].
    intros [= <-].
    assert (k.1 <> "") as Hk.
    { assert (n ∈ filter (fun n => model_key_of (usage n) = Some k) (nodes node))
        as Hn by (rewrite Hf; left).
      apply list_elem_of_filter in Hn as [Hn _].
      by apply model_key_of_Some in Hn as [_ ?]. }
    rewrite <- (filter_model_key_carries k _ Hk), Hf. done.
  - intros n m Hn Hm Hne. rewrite get_collect_model_usage.
    destruct (filter _ (nodes node)) as [|n' ms] eqn:Hf; [|by eexists].
    exfalso. eapply (filter_nil_not_elem_of _ _ n Hf); [|done].
    apply model_key_of_Some. done.
  - intros l1 l2 m1 m2 Hcs Hl1 Hl2 Hroot Hm1 Hm2 Hne1 Hne2 Hne.
    assert (model_key_of (usage node) = None) as Hk0
      by (unfold model_key_of; by rewrite Hroot).
    assert (model_key_of (usage l1) = Some (m1, usage_provider (usage l1)))
      as Hk1 by (by apply model_key_of_Some).
    assert (model_key_of (usage l2) = Some (m2, usage_provider (usage l2)))
      as Hk2 by (by apply model_key_of_Some).
    rewrite collect_model_usage_nodes.
    destruct node as [nm ty md u cs]. simpl in Hcs. subst cs.
    destruct l1 as [nm1 ty1 md1 u1 cs1], l2 as [nm2 ty2 md2 u2 cs2].
    simpl in Hl1, Hl2. subst cs1 cs2.
    cbn [nodes children map concat app foldl].
    rewrite !collect_own_usage_key, Hk0, Hk1, Hk2.
    cbn [usage]. unfold PyDict.empty, PyDict.mem.
    cbn [PyDict.get PyDict.set default from_option].
    repeat (first [ rewrite decide_True by done
                  | rewrite decide_False by congruence ];
            cbn [PyDict.get PyDict.set default from_option]).
    unfold expected_entry, add_usage, fresh_entry, sum_of. simpl.
    by rewrite !Z.add_0_r.
Qed.

Lemma collect_model_usage_per_model_sums_witness :
  let k := ("gpt-4o", Some "openai") in
  let e := ModelUsage.mk "gpt-4o" (Some "openai") 200 80 280 in
  PyDict.get k (collect_model_usage Sample.run PyDict.empty) = Some e /\
  filter (carries k) (nodes Sample.run) <> [] /\
  e = expected_entry k (filter (carries k) (nodes Sample.run)).
Proof.
  intros k e. split; [reflexivity|].
  apply (proj1 (proj2 (collect_model_usage_per_model_sums Sample.run)) k e).
  reflexivity.
Defined.

(** ** The total of every entry *)

Section dict_values.
Context {K V : Type} `{EqDecision K} (P : V -> Prop).
Implicit Types (d : PyDict.t K V).

Lemma Forall_values_set d k v :
  Forall (fun kv => P kv.2) d -> P v ->
  Forall (fun kv => P kv.2) (PyDict.set k v d).
Proof.
  intros Hd Hv. induction Hd as [|[k0 v0] d H0 Hd IH]; simpl.
  - by repeat constructor.
  - case_decide; constructor; done.
Qed.

Lemma Forall_values_get d k v :
  Forall (fun kv => P kv.2) d -> PyDict.get k d = Some v -> P v.
Proof.
  intros Hd. induction Hd as [|[k0 v0] d H0 Hd IH]; simpl; [done|].
  case_decide; [by intros [= <-] | done].
Qed.
End dict_values.

Lemma entry_consistent_fresh k : entry_consistent (fresh_entry k).
Proof. reflexivity. Qed.

Lemma entry_consistent_add_usage e u :
  entry_consistent e -> usage_consistent u -> entry_consistent (add_usage e u).
Proof. unfold entry_consistent, usage_consistent. simpl. lia. Qed.

(** One step of the traversal keeps the invariant of the accumulator. *)
Lemma collect_own_usage_consistent node d :
  usage_consistent (usage node) ->
  Forall (fun kv => entry_consistent kv.2) d ->
  Forall (fun kv => entry_consistent kv.2) (collect_own_usage node d).
Proof.
  intros Hu Hd. rewrite collect_own_usage_key.
  destruct (model_key_of (usage node)) as [k|]; [|done].
  apply Forall_values_set.
  - destruct (PyDict.mem k d); [done|].
    apply Forall_values_set; [done | apply entry_consistent_fresh].
  - apply entry_consistent_add_usage; [|done].
    destruct (PyDict.get k d) eqn:Hg; simpl.
    + by eapply (Forall_values_get entry_consistent).
    + apply entry_consistent_fresh.
Qed.

Lemma collect_model_usage_consistent node d :
  Forall (fun n => usage_consistent (usage n)) (nodes node) ->
  Forall (fun kv => entry_consistent kv.2) d ->
  Forall (fun kv => entry_consistent kv.2) (collect_model_usage node d).
Proof.
  rewrite collect_model_usage_nodes. generalize (nodes node). intros l Hl.
  revert d. induction Hl as [|n l Hn Hl IH]; intros d Hd; simpl; [done|].
  by apply IH, collect_own_usage_consistent.
Qed.

(** C2: if the usage record of every node of the tree has
    [total_tokens = input_tokens + output_tokens], then so has every entry
    of the dictionary that the model-breakdown traversal returns, although
    the traversal adds the three counters separately. *)
Theorem collect_model_usage_total_invariant (node : TokenNode) :
  Forall (fun n => usage_consistent (usage n)) (nodes node) ->
  Forall (fun kv => entry_consistent kv.2)
    (collect_model_usage node PyDict.empty).
Proof.
  intros Hnodes. apply collect_model_usage_consistent; [done | constructor].
Qed.

Lemma collect_model_usage_total_invariant_witness :
  Forall (fun n => usage_consistent (usage n)) (nodes Sample.run) /\
  Forall (fun kv => entry_consistent kv.2)
    (collect_model_usage Sample.run PyDict.empty).
Proof.
  assert (Forall (fun n => usage_consistent (usage n)) (nodes Sample.run)) as H
    by (repeat constructor).
  split; [exact H | exact (collect_model_usage_total_invariant Sample.run H)].
Defined.

(** ** The query tool *)

Section query_tool_facts.
Context {TokenCounter float WatchId UsageTree : Type}.
Context `{!PyFloat float} `{!TokenNodeOps UsageTree}.
Context `{!TokenCounterOps TokenCounter float WatchId}.

(** The result for a node that was found. *)
Lemma get_workflow_token_usage_found
    (token_counter : TokenCounter) (workflow_id run_id workflow_name : option string)
    (workflow_node : TokenNode) :
  get_workflow_node token_counter workflow_name workflow_id run_id
    = Some workflow_node ->
  get_workflow_token_usage (UsageTree:=UsageTree) (Some token_counter)
    workflow_id run_id workflow_name =
  ToolResult.Report
    (ToolResult.mk_workflow (name workflow_node)
       (metadata workflow_node !! "run_id")
       (metadata workflow_node !! "workflow_id"))
    (ToolResult.mk_usage
       (input_tokens (aggregate_usage workflow_node))
       (output_tokens (aggregate_usage workflow_node))
       (total_tokens (aggregate_usage workflow_node)))
    (round4 (_calculate_node_cost token_counter workflow_node))
    (foldl (add_model_breakdown token_counter) PyDict.empty
       (collect_model_usage workflow_node PyDict.empty))
    (to_dict workflow_node).
Proof. intros Hnode. unfold get_workflow_token_usage. by rewrite Hnode. Qed.

(** C3: when the lookup of the workflow node finds nothing, the tool
    returns a result, not an exception, and the result is the dictionary
    whose [error] field is "Workflow not found". *)
Theorem get_workflow_token_usage_not_found
    (token_counter : TokenCounter)
    (workflow_id run_id workflow_name : option string) :
  get_workflow_node token_counter workflow_name workflow_id run_id = None ->
  get_workflow_token_usage (UsageTree:=UsageTree) (Some token_counter)
    workflow_id run_id workflow_name =
  ToolResult.Error "Workflow not found"
    ("Could not find workflow with run_id='" +:+ py_str run_id +:+ "'").
Proof. intros Hnone. unfold get_workflow_token_usage. by rewrite Hnone. Qed.
End query_tool_facts.

Lemma get_workflow_token_usage_not_found_witness :
  get_workflow_node Sample.counter None None (Some "does-not-exist") = None /\
  get_workflow_token_usage (UsageTree:=SampleTree) (Some Sample.counter)
    None (Some "does-not-exist") None =
  ToolResult.Error "Workflow not found"
    "Could not find workflow with run_id='does-not-exist'".
Proof.
  split; [reflexivity|].
  apply (get_workflow_token_usage_not_found (UsageTree:=SampleTree)
           Sample.counter None (Some "does-not-exist") None).
  reflexivity.
Defined.

(** ** Aggregation *)

Lemma foldl_usage_sum (f : TokenUsage -> Z) total (l : list TokenNode) :
  (forall a b, f (usage_sum a b) = f a + f b) ->
  f (foldl (fun total child => usage_sum total (aggregate_usage child)) total l)
  = f total + sum_aggregates f l.
Proof.
  intros Hf. revert total. induction l as [|c l IH]; intros total; simpl.
  - lia.
  - rewrite IH, Hf. lia.
Qed.

Lemma aggregate_usage_children (f : TokenUsage -> Z) node :
  (forall a b, f (usage_sum a b) = f a + f b) ->
  f (aggregate_usage node) =
  f (own_usage node) + sum_aggregates f (children node).
Proof.
  intros Hf. destruct node as [nm ty md u cs]. simpl.
  by apply foldl_usage_sum.
Qed.

Lemma sum_of_app f (l1 l2 : list TokenNode) :
  sum_of f (l1 ++ l2) = sum_of f l1 + sum_of f l2.
Proof. unfold sum_of. induction l1 as [|n l1 IH]; simpl; lia. Qed.

Lemma usage_consistent_sum a b :
  usage_consistent a -> usage_consistent b -> usage_consistent (usage_sum a b).
Proof. unfold usage_consistent. simpl. lia. Qed.

(** On a tree of consistent records the aggregate is consistent: its total
    is the one recomputed from its two counters. *)
Lemma aggregate_usage_consistent node :
  Forall (fun n => usage_consistent (usage n)) (nodes node) ->
  usage_consistent (aggregate_usage node).
Proof.
  induction node as [node IH] using TokenNode_ind.
  destruct node as [nm ty md u cs]. simpl in *.
  intros Hall. apply Forall_cons in Hall as [Hown Hcs].
  assert (usage_consistent
            (own_usage (mkTokenNode nm ty md u cs))) as Hacc by exact Hown.
  revert Hacc. generalize (own_usage (mkTokenNode nm ty md u cs)).
  clear Hown. revert Hcs.
  induction IH as [|c cs Hc _ IHcs]; intros Hcs acc Hacc; simpl; [done|].
  simpl in Hcs. apply Forall_app in Hcs as [Hc' Hcs].
  apply IHcs; [done|]. apply usage_consistent_sum; [done | by apply Hc].
Qed.

Lemma aggregate_usage_nodes (f : TokenUsage -> Z) node :
  (forall a b, f (usage_sum a b) = f a + f b) ->
  (forall n, f (own_usage n) = f (usage n)) ->
  f (aggregate_usage node) = sum_of f (nodes node).
Proof.
  intros Hf Hown. induction node as [node IH] using TokenNode_ind.
  rewrite aggregate_usage_children by done.
  destruct node as [nm ty md u cs]. simpl in *. rewrite Hown. simpl.
  f_equal. induction IH as [|c cs Hc _ IHcs]; simpl; [done|].
  by rewrite sum_of_app, Hc, IHcs.
Qed.

(** C4: the aggregate total of a node is the total recorded at the node plus
    the aggregate totals of its children, and so the sum of the recorded
    totals over the whole subtree; the two other counters aggregate in the
    same way, and on a tree of consistent records the aggregate total is
    also the sum of the two aggregate counters.  The aggregate is a function
    of the tree alone.  The query tool puts the three counters of the
    aggregate of the node it found, as they are, in the [usage] field of its
    result. *)
Theorem aggregate_usage_total
    {TokenCounter float WatchId UsageTree : Type}
    `{!PyFloat float} `{!TokenNodeOps UsageTree}
    `{!TokenCounterOps TokenCounter float WatchId} :
  (forall node,
     total_tokens (aggregate_usage node) =
       total_tokens (usage node) + sum_aggregates total_tokens (children node) /\
     input_tokens (aggregate_usage node) =
       input_tokens (usage node) + sum_aggregates input_tokens (children node) /\
     output_tokens (aggregate_usage node) =
       output_tokens (usage node) + sum_aggregates output_tokens (children node)) /\
  (forall node,
     total_tokens (aggregate_usage node) = sum_of total_tokens (nodes node)) /\
  (forall node,
     Forall (fun n => usage_consistent (usage n)) (nodes node) ->
     usage_consistent (aggregate_usage node)) /\
  (forall (token_counter : TokenCounter) workflow_id run_id workflow_name node,
     get_workflow_node token_counter workflow_name workflow_id run_id = Some node ->
     exists workflow cost model_breakdown usage_tree,
       get_workflow_token_usage (UsageTree:=UsageTree) (Some token_counter)
         workflow_id run_id workflow_name =
       ToolResult.Report workflow
         (ToolResult.mk_usage (input_tokens (aggregate_usage node))
            (output_tokens (aggregate_usage node))
            (total_tokens (aggregate_usage node)))
         cost model_breakdown usage_tree).
Proof.
  split; [|split; [|split]].
  - intros node. repeat split.
    + by rewrite (aggregate_usage_children total_tokens).
    + by rewrite (aggregate_usage_children input_tokens).
    + by rewrite (aggregate_usage_children output_tokens).
  - intros node. by apply aggregate_usage_nodes.
  - apply aggregate_usage_consistent.
  - intros tc wid rid wname node Hnode.
    rewrite (get_workflow_token_usage_found _ _ _ _ _ Hnode). by do 4 eexists.
Qed.

Lemma aggregate_usage_total_witness :
  get_workflow_node Sample.counter None None (Some "run-123") = Some Sample.run /\
  total_tokens (aggregate_usage Sample.run) = 430 /\
  exists workflow cost model_breakdown usage_tree,
    get_workflow_token_usage (UsageTree:=SampleTree) (Some Sample.counter)
      None (Some "run-123") None =
    ToolResult.Report workflow (ToolResult.mk_usage 300 130 430)
      cost model_breakdown usage_tree.
Proof.
  split; [reflexivity|]. split; [reflexivity|].
  apply (proj2 (proj2 (proj2 (aggregate_usage_total (UsageTree:=SampleTree))))
           Sample.counter None (Some "run-123") None Sample.run).
  reflexivity.
Defined.

(** ** The display: subscriptions *)

Section display_facts.
Context {TokenCounter float WatchId : Type}.
Context `{!PyFloat float} `{!TokenCounterOps TokenCounter float WatchId}.
Implicit Types (self : Display.t TokenCounter WatchId).

Lemma start_with_root self root :
  _root (Display.token_counter self) = Some root ->
  let args := WatchArgs.mk bound_on_token_update root 1 100 in
  start self =
  Display.mk (watch (Display.token_counter self) args).2
    (Display._taskmap self)
    (Display._watch_ids self ++ [(watch (Display.token_counter self) args).1])
    (Progress.add_task "[bold]TOTAL" "0" "$0.0000"
       (Progress.start (Display._progress self))).2
    (Display._paused self)
    (Some (Progress._task_index (Display._progress self)))
    (Display.calls self ++ [CallWatch args]).
Proof.
  intros Hroot args. unfold start. simpl. rewrite Hroot.
  fold args. by destruct (watch (Display.token_counter self) args).
Qed.

Lemma start_without_root self :
  _root (Display.token_counter self) = None ->
  start self =
  Display.mk (Display.token_counter self) (Display._taskmap self)
    (Display._watch_ids self)
    (Progress.add_task "[bold]TOTAL" "0" "$0.0000"
       (Progress.start (Display._progress self))).2
    (Display._paused self)
    (Some (Progress._task_index (Display._progress self)))
    (Display.calls self).
Proof. intros Hroot. unfold start. simpl. by rewrite Hroot. Qed.

Lemma in_calls_unwatch (ids : list WatchId) watch_id :
  watch_id ∈ ids -> CallUnwatch watch_id ∈ map CallUnwatch ids.
Proof.
  rewrite !list_elem_of_In. intros Hin. apply in_map_iff. eauto.
Qed.

(** C5, amended: entering the scope runs [start] and leaving it runs
    [stop], whether the body returns or raises.  When the counter has a
    root, [start] makes one call of [watch], on the root, with threshold 1
    and a throttle of 100 ms, and appends the id it gets to [_watch_ids];
    when the counter has no root it makes no call.  After [stop] the list
    is empty and every id that was in it has been passed to [unwatch]; if
    the body left the list alone this includes the id [start] recorded. *)
Theorem with_display_registers_and_releases {A : Type}
    (body : Display.t TokenCounter WatchId ->
            outcome A * Display.t TokenCounter WatchId) self :
  (forall root,
     _root (Display.token_counter self) = Some root ->
     let args := WatchArgs.mk bound_on_token_update root 1 100 in
     Display.calls (start self) = Display.calls self ++ [CallWatch args] /\
     Display._watch_ids (start self) =
       Display._watch_ids self ++ [(watch (Display.token_counter self) args).1] /\
     Display.token_counter (start self) =
       (watch (Display.token_counter self) args).2) /\
  (_root (Display.token_counter self) = None ->
     Display.calls (start self) = Display.calls self /\
     Display._watch_ids (start self) = Display._watch_ids self) /\
  (forall result inside,
     body (start self) = (result, inside) ->
     with_display body self = (result, stop inside) /\
     Display._watch_ids (stop inside) = [] /\
     Display.calls (stop inside) =
       Display.calls inside ++ map CallUnwatch (Display._watch_ids inside) /\
     (forall watch_id,
        watch_id ∈ Display._watch_ids inside ->
        CallUnwatch watch_id ∈ Display.calls (stop inside)) /\
     (Display._watch_ids inside = Display._watch_ids (start self) ->
      forall watch_id,
        watch_id ∈ Display._watch_ids (start self) ->
        CallUnwatch watch_id ∈ Display.calls (stop inside))).
Proof.
  split; [|split].
  - intros root Hroot args. rewrite (start_with_root self root Hroot). done.
  - intros Hroot. rewrite (start_without_root self Hroot). done.
  - intros result inside Hbody.
    assert (forall watch_id,
              watch_id ∈ Display._watch_ids inside ->
              CallUnwatch watch_id ∈ Display.calls (stop inside)) as Hall.
    { intros watch_id Hin. simpl. apply elem_of_app. right.
      by apply in_calls_unwatch. }
    split; [|split; [|split; [|split]]]; try done.
    + unfold with_display, with_scope, try_finally, __enter__, __exit__.
      by rewrite Hbody.
    + intros Hkeep watch_id Hin. apply Hall. by rewrite Hkeep.
Qed.

(** C6: a second [stop] changes nothing: the display, the counter it refers
    to and the record of calls are as the first [stop] left them, so the
    second [stop] passes no id to [unwatch]; the first one has emptied the
    list. *)
Theorem stop_idempotent self :
  stop (stop self) = stop self /\
  Display._watch_ids (stop self) = [] /\
  Display.calls (stop (stop self)) = Display.calls (stop self) /\
  Display.token_counter (stop (stop self)) = Display.token_counter (stop self).
Proof.
  assert (stop (stop self) = stop self) as Heq.
  { unfold stop. simpl. by rewrite app_nil_r. }
  by rewrite Heq.
Qed.

(** C10: on a counter without a root, [start] makes no call to the counter
    and leaves it and the list of ids as they were, so no subscription
    exists on behalf of this [start]; the live view runs and shows the
    new task with "0" tokens and "$0.0000".  A [stop] that follows on a
    display with no earlier id calls nothing either. *)
Theorem start_without_root_registers_nothing self :
  _root (Display.token_counter self) = None ->
  Display.calls (start self) = Display.calls self /\
  Display.token_counter (start self) = Display.token_counter self /\
  Display._watch_ids (start self) = Display._watch_ids self /\
  Progress.started (Display._progress (start self)) = true /\
  Progress.tasks (Display._progress (start self)) =
    Progress.tasks (Display._progress self) ++
    [Progress.mk_task (Progress._task_index (Display._progress self))
       true "[bold]TOTAL" "0" "$0.0000"] /\
  Display._total_task_id (start self) =
    Some (Progress._task_index (Display._progress self)) /\
  (Display._watch_ids self = [] ->
     Display.calls (stop (start self)) = Display.calls self /\
     Display.token_counter (stop (start self)) = Display.token_counter self /\
     Display._watch_ids (stop (start self)) = []).
Proof.
  intros Hroot. rewrite (start_without_root self Hroot). simpl.
  split_and!; try done; intros H.
  split_and!; rewrite ?H; simpl; [apply app_nil_r | done..].
Qed.
End display_facts.

(** C5 as first stated fails on a counter without a root: [start] then
    registers no watch at all. *)
Lemma start_rootless_registers_no_watch :
  ~ registers_one_watch SampleRun.rootless_display
      (start SampleRun.rootless_display).
Proof. intros (args & watch_id & Hcalls & _). discriminate Hcalls. Qed.

Lemma with_display_registers_and_releases_witness :
  _root (Display.token_counter SampleRun.display) = Some Sample.run /\
  SampleRun.fail (start SampleRun.display)
    = (Raised "RuntimeError", start SampleRun.display) /\
  with_display SampleRun.fail SampleRun.display
    = (Raised "RuntimeError", stop (start SampleRun.display)) /\
  Display.calls (start SampleRun.display)
    = [CallWatch (WatchArgs.mk bound_on_token_update Sample.run 1 100)] /\
  CallUnwatch 0%nat ∈ Display.calls (stop (start SampleRun.display)).
Proof.
  destruct (with_display_registers_and_releases SampleRun.fail SampleRun.display)
    as (Hstart & _ & Hexit).
  destruct (Hstart Sample.run eq_refl) as (Hcalls & _ & _).
  destruct (Hexit (Raised "RuntimeError") (start SampleRun.display) eq_refl)
    as (Hwith & _ & _ & _ & Hkept).
  split; [reflexivity|]. split; [reflexivity|]. split; [exact Hwith|].
  split; [exact Hcalls|].
  apply Hkept; [reflexivity | left].
Defined.

Lemma start_without_root_registers_nothing_witness :
  _root (Display.token_counter SampleRun.rootless_display) = None /\
  Display.calls (start SampleRun.rootless_display) = [] /\
  Progress.tasks (Display._progress (start SampleRun.rootless_display))
    = [Progress.mk_task 0 true "[bold]TOTAL" "0" "$0.0000"] /\
  Display.calls (stop (start SampleRun.rootless_display)) = [].
Proof.
  assert (_root (Display.token_counter SampleRun.rootless_display) = None)
    as Hroot by reflexivity.
  destruct (start_without_root_registers_nothing SampleRun.rootless_display Hroot)
    as (Hcalls & _ & _ & _ & Htasks & _ & Hstop).
  destruct (Hstop eq_refl) as (Hcalls' & _ & _).
  split; [exact Hroot|]. split; [exact Hcalls|]. split; [exact Htasks|].
  exact Hcalls'.
Defined.

(** ** The display: pausing *)

Lemma set_all_visible_restore p :
  Forall (fun k => Progress.visible k = true) (Progress.tasks p) ->
  Progress.tasks
    (Progress.set_all_visible true (Progress.set_all_visible false p))
  = Progress.tasks p.
Proof.
  destruct p as [st ts ix]. simpl. intros Hvis.
  induction Hvis as [|k ts Hk _ IH]; simpl; [done|].
  rewrite IH. destruct k; simpl in *. by subst.
Qed.

Lemma map_visible_replicate (l : list Progress.task) (n : nat) :
  map Progress.visible l = replicate n true <->
  length l = n /\ Forall (fun k => Progress.visible k = true) l.
Proof.
  revert n. induction l as [|k l IH]; intros [|n]; simpl.
  - by split.
  - split; [done | by intros [? _]].
  - split; [done | by intros [? _]].
  - split.
    + intros [= Hk Hl]. apply IH in Hl as [Hlen Hall].
      split; [by rewrite Hlen | by constructor].
    + intros [[= Hlen] Hall]. apply Forall_cons in Hall as [Hk Hall].
      rewrite Hk. f_equal. apply IH. done.
Qed.

Lemma map_visible_set_all_visible v p :
  map Progress.visible (Progress.tasks (Progress.set_all_visible v p))
  = replicate (length (Progress.tasks p)) v.
Proof.
  destruct p as [st ts ix]. simpl.
  induction ts as [|k ts IH]; simpl; [done | by rewrite IH].
Qed.

Section pause_facts.
Context {TokenCounter float WatchId : Type}.
Context `{!PyFloat float} `{!TokenCounterOps TokenCounter float WatchId}.
Implicit Types (self : Display.t TokenCounter WatchId).

Lemma pause_frame self :
  Display.calls (pause self) = Display.calls self /\
  Display.token_counter (pause self) = Display.token_counter self /\
  Display._watch_ids (pause self) = Display._watch_ids self.
Proof. unfold pause. by destruct (Display._paused self). Qed.

Lemma resume_frame self :
  Display.calls (resume self) = Display.calls self /\
  Display.token_counter (resume self) = Display.token_counter self /\
  Display._watch_ids (resume self) = Display._watch_ids self.
Proof. unfold resume. by destruct (Display._paused self). Qed.

Lemma visibility_resume_paused self :
  Display._paused self = true ->
  visibility (resume self) =
  (false, true, replicate (length (Progress.tasks (Display._progress self))) true).
Proof.
  intros Hp. unfold resume. rewrite Hp. unfold visibility. simpl.
  f_equal. apply (map_visible_set_all_visible true).
Qed.

(** C7, amended: [pause] and [resume] make no call to the counter and
    leave it and [_watch_ids] as they were; the [paused()] scope runs
    [resume] when the body returns and when it raises.  If the scope is
    entered on a display that is not paused, whose live view runs and
    whose tasks are all visible, then what is on screen after the scope is
    what was on screen before it, exactly when the body has added or removed
    no task and has left the display paused, or has itself resumed it; a
    notification handled during the pause is such a body.  If the body
    leaves the pause flag and the widget alone, the flag and the whole
    widget are afterwards what they were on entry. *)
Theorem pause_resume_keep_subscription {A : Type}
    (body : Display.t TokenCounter WatchId ->
            outcome A * Display.t TokenCounter WatchId) self :
  (Display.calls (pause self) = Display.calls self /\
   Display.token_counter (pause self) = Display.token_counter self /\
   Display._watch_ids (pause self) = Display._watch_ids self) /\
  (Display.calls (resume self) = Display.calls self /\
   Display.token_counter (resume self) = Display.token_counter self /\
   Display._watch_ids (resume self) = Display._watch_ids self) /\
  (forall result inside,
     body (pause self) = (result, inside) ->
     paused body self = (result, resume inside) /\
     (Display._paused self = false ->
      Progress.started (Display._progress self) = true ->
      Forall (fun k => Progress.visible k = true)
        (Progress.tasks (Display._progress self)) ->
      (visibility (resume inside) = visibility self <->
       length (Progress.tasks (Display._progress inside))
         = length (Progress.tasks (Display._progress self)) /\
       (Display._paused inside = true \/
        (Progress.started (Display._progress inside) = true /\
         Forall (fun k => Progress.visible k = true)
           (Progress.tasks (Display._progress inside))))) /\
      (Display._paused inside = Display._paused (pause self) ->
       Display._progress inside = Display._progress (pause self) ->
       Display._paused (resume inside) = Display._paused self /\
       Display._progress (resume inside) = Display._progress self /\
       visibility (resume inside) = visibility self))).
Proof.
  split; [apply pause_frame|]. split; [apply resume_frame|].
  intros result inside Hbody. split.
  - unfold paused, try_finally. by rewrite Hbody.
  - intros Hpaused Hstarted Hvisible.
    assert (visibility self =
            (false, true,
             replicate (length (Progress.tasks (Display._progress self))) true))
      as Hbefore.
    { unfold visibility. rewrite Hpaused, Hstarted. f_equal.
      by apply map_visible_replicate. }
    split.
    + rewrite Hbefore. destruct (Display._paused inside) eqn:Hflag.
      * rewrite (visibility_resume_paused inside Hflag). split.
        -- intros [= Hrep]. apply (f_equal length) in Hrep.
           rewrite !length_replicate in Hrep. split; [done | by left].
        -- intros [Hlen _]. by rewrite Hlen.
      * assert (resume inside = inside) as ->
          by (unfold resume; by rewrite Hflag).
        unfold visibility. rewrite Hflag. split.
        -- intros [= Hst Hmap]. apply map_visible_replicate in Hmap
             as [Hlen Hall]. split; [done | by right].
        -- intros [Hlen [Hcontra | [Hst Hall]]]; [done|].
           rewrite Hst. f_equal. by apply map_visible_replicate.
    + intros Hflag Hwidget.
      assert (Display._paused (resume inside) = Display._paused self /\
              Display._progress (resume inside) = Display._progress self)
        as [Hp Hw].
      { unfold resume. rewrite Hflag, Hwidget. unfold pause.
        rewrite Hpaused. simpl. split; [done|].
        pose proof (set_all_visible_restore (Display._progress self) Hvisible)
          as Hts.
        destruct (Display._progress self) as [st ts ix].
        simpl in *. unfold Progress.start, Progress.set_all_visible. simpl.
        by rewrite Hts, Hstarted. }
      unfold visibility. by rewrite Hp, Hw.
Qed.
End pause_facts.

(** C7 as first stated fails when the scope is entered on a display that is
    already paused: leaving the scope un-pauses it. *)
Lemma paused_scope_on_paused_display :
  let paused_display := pause (start SampleRun.display) in
  visibility paused_display = (true, false, [false]) /\
  visibility (paused SampleRun.pass paused_display).2 = (false, true, [true]) /\
  visibility (paused SampleRun.pass paused_display).2
    <> visibility paused_display.
Proof. by split_and!. Qed.

Lemma pause_resume_keep_subscription_witness :
  let running := start SampleRun.display in
  let notified (s : Display.t SampleCounter.t nat) :=
    _on_token_update s Sample.call_1 (usage Sample.call_1) in
  let inside := (notified (pause running)).2 in
  notified (pause running) = (Returned tt, inside) /\
  Display._paused running = false /\
  Progress.started (Display._progress running) = true /\
  Forall (fun k => Progress.visible k = true)
    (Progress.tasks (Display._progress running)) /\
  Display._progress inside <> Display._progress (pause running) /\
  paused notified running = (Returned tt, resume inside) /\
  visibility (resume inside) = visibility running.
Proof.
  intros running notified inside.
  assert (Forall (fun k => Progress.visible k = true)
            (Progress.tasks (Display._progress running))) as Hvisible
    by (repeat constructor).
  assert (notified (pause running) = (Returned tt, inside)) as Hbody
    by reflexivity.
  destruct (pause_resume_keep_subscription notified running)
    as (_ & _ & Hscope).
  destruct (Hscope (Returned tt) inside Hbody) as (Hpaused & Hrestore).
  destruct (Hrestore eq_refl eq_refl Hvisible) as (Hiff & _).
  split; [exact Hbody|]. split; [reflexivity|]. split; [reflexivity|].
  split; [exact Hvisible|]. split; [discriminate|].
  split; [exact Hpaused|].
  apply Hiff. split; [reflexivity | left; reflexivity].
Defined.

(** ** Costs *)

Lemma update_row task_id node_info tokens cost p p' :
  Progress.update task_id node_info tokens cost p = Some p' ->
  (exists row, In row (Progress.tasks p') /\ Some (Progress.id row) = task_id) /\
  (forall row,
     In row (Progress.tasks p') -> Some (Progress.id row) = task_id ->
     Progress.node_info row = node_info /\ Progress.tokens row = tokens /\
     Progress.cost row = cost).
Proof.
  unfold Progress.update. destruct task_id as [i|]; [|done].
  destruct (Progress.has_task i p) eqn:Hhas; [|done].
  intros [= <-]. simpl. split.
  - unfold Progress.has_task in Hhas. apply existsb_exists in Hhas
      as (row & Hin & Hid). apply Nat.eqb_eq in Hid.
    exists (Progress.mk_task (Progress.id row) (Progress.visible row)
              node_info tokens cost).
    split; [|by rewrite Hid]. apply in_map_iff. exists row.
    split; [|done]. by rewrite Hid, Nat.eqb_refl.
  - intros row Hin [= Hid]. apply in_map_iff in Hin as (row0 & Hrow & _).
    destruct (Nat.eqb (Progress.id row0) i) eqn:Heq.
    + by subst row.
    + subst row. apply Nat.eqb_neq in Heq. done.
Qed.

Section cost_facts.
Context {TokenCounter float WatchId UsageTree : Type}.
Context `{!PyFloat float} `{!TokenNodeOps UsageTree}.
Context `{!TokenCounterOps TokenCounter float WatchId}.
Implicit Types (token_counter : TokenCounter).
Implicit Types (items : list (ModelKey * ModelUsage.t)).
Implicit Types (rows : list (string * ToolResult.model_entry float)).

Lemma get_foldl_add_model_breakdown token_counter items model_breakdown key entry :
  PyDict.get key (foldl (add_model_breakdown token_counter) model_breakdown items)
    = Some entry ->
  PyDict.get key model_breakdown = Some entry \/
  presented_from token_counter items key entry.
Proof.
  revert model_breakdown.
  induction items as [|[[m p] u] items IH]; intros mb; simpl; [by left|].
  intros Hget. apply IH in Hget as [Hget | (m' & p' & u' & Hin & -> & ->)].
  - rewrite get_set in Hget. case_decide as Hkey.
    + injection Hget as <-. right. exists m, p, u. split; [left | done].
    + by left.
  - right. exists m', p', u'. split; [by right | done].
Qed.

Lemma add_model_breakdown_set token_counter rows item :
  add_model_breakdown token_counter rows item =
  PyDict.set (item_display_key item) (item_entry token_counter item) rows.
Proof. by destruct item as [[m p] u]. Qed.

Lemma get_foldl_add_model_breakdown_last token_counter items rows key :
  PyDict.get key (foldl (add_model_breakdown token_counter) rows items) =
  match last (filter (fun item => item_display_key item = key) items) with
  | Some item => Some (item_entry token_counter item)
  | None => PyDict.get key rows
  end.
Proof.
  revert rows. induction items as [|item items IH]; intros rows; [done|].
  cbn [foldl]. rewrite IH, add_model_breakdown_set, get_set, filter_cons.
  case_decide as Hkey.
  - rewrite decide_True by done. rewrite last_cons.
    by destruct (last _).
  - rewrite decide_False by done. done.
Qed.

Lemma get_model_breakdown_of token_counter items key :
  PyDict.get key (model_breakdown_of token_counter items) =
  item_entry token_counter <$>
    last (filter (fun item => item_display_key item = key) items).
Proof.
  unfold model_breakdown_of.
  rewrite get_foldl_add_model_breakdown_last. by destruct (last _).
Qed.

Lemma on_token_update_returned
    (self after : Display.t TokenCounter WatchId) node usage :
  _on_token_update self node usage = (Returned tt, after) ->
  exists progress,
    Progress.update (Display._total_task_id self) "[bold]TOTAL"
      (_format_tokens
         (total_tokens
            (TokenSummary.usage (get_summary (Display.token_counter self)))))
      (_format_cost
         (TokenSummary.cost (get_summary (Display.token_counter self))))
      (Display._progress self) = Some progress /\
    after = set_progress progress self.
Proof.
  change (_on_token_update self node usage) with
    (match Progress.update (Display._total_task_id self) "[bold]TOTAL"
             (_format_tokens
                (total_tokens
                   (TokenSummary.usage
                      (get_summary (Display.token_counter self)))))
             (_format_cost
                (TokenSummary.cost (get_summary (Display.token_counter self))))
             (Display._progress self) with
     | Some progress => (Returned tt, set_progress progress self)
     | None => (Raised "KeyError", self)
     end).
  destruct (Progress.update _ _ _ _ _) as [progress|]; [|done].
  intros [= <-]. by exists progress.
Qed.

(** C8: the tool rounds a cost only where it writes it into its result.
    The [cost] field is [round(c, 4)] of the very value the counter computed
    for the node.  The breakdown is written from [model_usage]: every entry
    of [model_usage] is given a row under its display key, the row under a
    key is the one of the last entry with this key, and every row holds the
    counters of its entry and [round(c, 4)] of the very value the counter
    computed from them.  When the callback of the display returns, the cost
    text of the total row is "$" followed by the four-decimal format of the
    cost of the summary as the counter returns it. *)
Theorem cost_rounded_at_presentation_only :
  (forall token_counter workflow_id run_id workflow_name node,
     get_workflow_node token_counter workflow_name workflow_id run_id = Some node ->
     let model_usage : list (ModelKey * ModelUsage.t) :=
       collect_model_usage node PyDict.empty in
     let rows := model_breakdown_of token_counter model_usage in
     (exists workflow usage usage_tree,
        get_workflow_token_usage (UsageTree:=UsageTree) (Some token_counter)
          workflow_id run_id workflow_name =
        ToolResult.Report workflow usage
          (round4 (_calculate_node_cost token_counter node))
          rows usage_tree) /\
     (forall item,
        item ∈ model_usage ->
        is_Some (PyDict.get (item_display_key item) rows)) /\
     (forall key,
        PyDict.get key rows =
        item_entry token_counter <$>
          last (filter (fun item => item_display_key item = key) model_usage)) /\
     (forall key entry,
        PyDict.get key rows = Some entry ->
        presented_from token_counter model_usage key entry)) /\
  (forall (self after : Display.t TokenCounter WatchId) node usage,
     _on_token_update self node usage = (Returned tt, after) ->
     (exists row,
        In row (Progress.tasks (Display._progress after)) /\
        Some (Progress.id row) = Display._total_task_id self) /\
     (forall row,
        In row (Progress.tasks (Display._progress after)) ->
        Some (Progress.id row) = Display._total_task_id self ->
        Progress.cost row =
        "$" +:+ format_4f
                  (TokenSummary.cost
                     (get_summary (Display.token_counter self))))) /\
  (forall cost : float, _format_cost cost = "$" +:+ format_4f cost).
Proof.
  split_and!; [|  |done].
  - intros tc wid rid wname node Hnode model_usage rows.
    subst model_usage rows. split_and!.
    + rewrite (get_workflow_token_usage_found _ _ _ _ _ Hnode).
      by do 3 eexists.
    + intros item Hin. rewrite get_model_breakdown_of.
      apply fmap_is_Some, last_is_Some.
      intros Hnil. eapply (filter_nil_not_elem_of _ _ item Hnil); done.
    + apply get_model_breakdown_of.
    + intros key entry Hget. unfold model_breakdown_of in Hget.
      by apply get_foldl_add_model_breakdown in Hget as [Hget | Hfrom].
  - intros self after node usage Hret.
    apply on_token_update_returned in Hret as (progress & Hup & ->).
    apply update_row in Hup as [Hex Hall]. simpl. split; [exact Hex|].
    intros row Hin Hid. by destruct (Hall row Hin Hid) as (_ & _ & ->).
Qed.
End cost_facts.

Lemma cost_rounded_at_presentation_only_witness :
  let model_usage := collect_model_usage Sample.run PyDict.empty in
  let rows := model_breakdown_of Sample.counter model_usage in
  let item := (("claude-sonnet", Some "anthropic"),
               ModelUsage.mk "claude-sonnet" (Some "anthropic") 100 50 150) in
  get_workflow_node Sample.counter None None (Some "run-123") = Some Sample.run /\
  calculate_cost Sample.counter "claude-sonnet" 100 50 (Some "anthropic")
    = SampleFloat.scaled 300 (-18) /\
  item ∈ model_usage /\
  PyDict.get "claude-sonnet (anthropic)" rows
    = Some (ToolResult.mk_model_entry item.2 (SampleFloat.decimal4 false 11)) /\
  is_Some (PyDict.get (item_display_key item) rows) /\
  _on_token_update (start SampleRun.display) Sample.call_1 (usage Sample.call_1)
    = (Returned tt,
       set_progress
         (Progress.mk true
            [Progress.mk_task 0 true "[bold]TOTAL" "430" "$0.0031"] 1)
         (start SampleRun.display)) /\
  exists row,
    In row [Progress.mk_task 0 true "[bold]TOTAL" "430" "$0.0031"] /\
    Some (Progress.id row) = Display._total_task_id (start SampleRun.display).
Proof.
  intros model_usage rows item.
  assert (get_workflow_node Sample.counter None None (Some "run-123")
          = Some Sample.run) as Hnode by reflexivity.
  assert (item ∈ model_usage) as Hin by left.
  assert (_on_token_update (start SampleRun.display) Sample.call_1
            (usage Sample.call_1)
          = (Returned tt,
             set_progress
               (Progress.mk true
                  [Progress.mk_task 0 true "[bold]TOTAL" "430" "$0.0031"] 1)
               (start SampleRun.display))) as Hret by reflexivity.
  destruct (cost_rounded_at_presentation_only (UsageTree:=SampleTree))
    as (Htool & Hdisplay & _).
  destruct (Htool Sample.counter None (Some "run-123") None Sample.run Hnode)
    as (_ & Hrow & _ & _).
  destruct (Hdisplay _ _ _ _ Hret) as (Hshown & _).
  split; [exact Hnode|]. split; [reflexivity|]. split; [exact Hin|].
  split; [reflexivity|]. split; [exact (Hrow item Hin)|].
  split; [exact Hret | exact Hshown].
Defined.

(** ** The callback *)

Section callback_facts.
Context {TokenCounter float WatchId : Type}.
Context `{!PyFloat float} `{!TokenCounterOps TokenCounter float WatchId}.
Implicit Types (self : Display.t TokenCounter WatchId).

(** C9: the update that [_on_token_update] issues is built from the
    summary read when it runs and from nothing else: on one display the
    call does the same whatever [node] and [usage] it is given, and on any
    two displays whose counters return the same summary the three fields
    of the update are the same, whatever the payloads; the task updated
    is the display's own total task. *)
Theorem on_token_update_ignores_payload :
  (forall self node1 usage1 node2 usage2,
     token_update_args self node1 usage1 = token_update_args self node2 usage2 /\
     _on_token_update self node1 usage1 = _on_token_update self node2 usage2) /\
  (forall self node usage,
     token_update_args self node usage =
     let summary := get_summary (Display.token_counter self) in
     ProgressUpdate.mk (Display._total_task_id self) "[bold]TOTAL"
       (_format_tokens (total_tokens (TokenSummary.usage summary)))
       (_format_cost (TokenSummary.cost summary))) /\
  (forall self1 self2 node1 usage1 node2 usage2,
     get_summary (Display.token_counter self1)
       = get_summary (Display.token_counter self2) ->
     let args1 := token_update_args self1 node1 usage1 in
     let args2 := token_update_args self2 node2 usage2 in
     ProgressUpdate.node_info args1 = ProgressUpdate.node_info args2 /\
     ProgressUpdate.tokens args1 = ProgressUpdate.tokens args2 /\
     ProgressUpdate.cost args1 = ProgressUpdate.cost args2 /\
     ProgressUpdate.task_id args1 = Display._total_task_id self1 /\
     ProgressUpdate.task_id args2 = Display._total_task_id self2).
Proof.
  split; [done|]. split; [done|].
  intros self1 self2 node1 usage1 node2 usage2 Hsummary. simpl.
  by rewrite Hsummary.
Qed.
End callback_facts.

Lemma on_token_update_ignores_payload_witness :
  let self1 := start SampleRun.display in
  let self2 := pause (start SampleRun.display) in
  get_summary (Display.token_counter self1)
    = get_summary (Display.token_counter self2) /\
  ProgressUpdate.tokens (token_update_args self1 Sample.call_1 (usage Sample.call_1))
    = ProgressUpdate.tokens (token_update_args self2 Sample.run Sample.no_usage) /\
  ProgressUpdate.cost (token_update_args self1 Sample.call_1 (usage Sample.call_1))
    = ProgressUpdate.cost (token_update_args self2 Sample.run Sample.no_usage).
Proof.
  intros self1 self2.
  assert (get_summary (Display.token_counter self1)
            = get_summary (Display.token_counter self2)) as Hsummary
    by reflexivity.
  destruct (proj2 (proj2 on_token_update_ignores_payload)
              self1 self2 Sample.call_1 (usage Sample.call_1)
              Sample.run Sample.no_usage Hsummary)
    as (_ & Htokens & Hcost & _).
  split; [exact Hsummary|]. split; [exact Htokens | exact Hcost].
Defined.

(** ** The sample session, evaluated *)

Example format_tokens_examples :
  _format_tokens 0 = "0" /\ _format_tokens 999 = "999" /\
  _format_tokens 1000 = "1,000" /\ _format_tokens 1234567 = "1,234,567" /\
  _format_tokens (-1234) = "-1,234".
Proof. by split_and!. Qed.

Example format_cost_example :
  _format_cost (SampleFloat.scaled 300 (-18)) = "$0.0011" /\
  round4 (SampleFloat.scaled 300 (-18)) = SampleFloat.decimal4 false 11 /\
  _format_cost (SampleFloat.scaled 1 (-5)) = "$0.0312" /\
  _format_cost (SampleFloat.scaled (-1) (-17)) = "$-0.0000" /\
  _format_cost (round4 (SampleFloat.scaled 520 (-18))) = "$0.0020".
Proof. by split_and!. Qed.

Example sample_model_usage :
  collect_model_usage Sample.run PyDict.empty =
  [(("claude-sonnet", Some "anthropic"),
    ModelUsage.mk "claude-sonnet" (Some "anthropic") 100 50 150);
   (("gpt-4o", Some "openai"),
    ModelUsage.mk "gpt-4o" (Some "openai") 200 80 280)].
Proof. reflexivity. Qed.

Example sample_token_usage :
  get_workflow_token_usage (Some Sample.counter) None (Some "run-123") None =
  ToolResult.Report
    (ToolResult.mk_workflow "R1" (Some "run-123") (Some "BasicAgentWorkflow"))
    (ToolResult.mk_usage 300 130 430)
    (SampleFloat.decimal4 false 31)
    [("claude-sonnet (anthropic)",
      ToolResult.mk_model_entry
        (ModelUsage.mk "claude-sonnet" (Some "anthropic") 100 50 150)
        (SampleFloat.decimal4 false 11));
     ("gpt-4o (openai)",
      ToolResult.mk_model_entry
        (ModelUsage.mk "gpt-4o" (Some "openai") 200 80 280)
        (SampleFloat.decimal4 false 20))]
    (sample_tree "R1" 430
       [sample_tree "finder" 430
          [sample_tree "llm_call_1" 150 []; sample_tree "llm_call_2" 280 []]]).
Proof. reflexivity. Qed.

Example sample_counter_absent :
  get_workflow_token_usage (UsageTree:=SampleTree) (None : option SampleCounter.t)
    None (Some "run-123") None =
  ToolResult.Error "Token counter not available"
    "Token tracking is not enabled for this application".
Proof. reflexivity. Qed.

(** A model name that is the empty string is not counted. *)
Example empty_model_name_skipped :
  collect_model_usage
    (mkTokenNode "n" "llm" ∅ (Build_TokenUsage 5 7 12 (Some "") None) [])
    PyDict.empty = [].
Proof. reflexivity. Qed.

Example sample_callback :
  _on_token_update (start SampleRun.display) Sample.call_1 (usage Sample.call_1) =
  (Returned tt,
   set_progress
     (Progress.mk true [Progress.mk_task 0 true "[bold]TOTAL" "430" "$0.0031"] 1)
     (start SampleRun.display)).
Proof. reflexivity. Qed.

(** Before [start] there is no total task and the callback raises. *)
Example callback_before_start :
  _on_token_update SampleRun.display Sample.call_1 (usage Sample.call_1) =
  (Raised "KeyError", SampleRun.display).
Proof. reflexivity. Qed.

(** On the sample counter, [stop] removes the subscription of [start], and
    cancelling an id that is not registered changes nothing. *)
Example sample_stop_unsubscribes :
  SampleCounter.subscriptions (Display.token_counter (start SampleRun.display))
    !! 0%nat = Some (WatchArgs.mk bound_on_token_update Sample.run 1 100) /\
  SampleCounter.subscriptions
    (Display.token_counter (stop (start SampleRun.display))) !! 0%nat = None.
Proof. by split. Qed.

Lemma sample_unwatch_unknown (c : SampleCounter.t) (watch_id : nat) :
  SampleCounter.subscriptions c !! watch_id = None ->
  SampleCounter.unwatch c watch_id = c.
Proof.
  intros Hnone. unfold SampleCounter.unwatch.
  rewrite delete_id by done. by destruct c.
Qed.

(** * Further properties *)

(** ** The thousands separator *)

Lemma thousands_ind (P : list ascii -> Prop) :
  P [] -> (forall a, P [a]) -> (forall a b, P [a; b]) ->
  (forall a b c, P [a; b; c]) ->
  (forall a b c d r, P (d :: r) -> P (a :: b :: c :: d :: r)) ->
  forall l, P l.
Proof.
  intros H0 H1 H2 H3 H4 l.
  assert (forall n l, (length l <= n)%nat -> P l) as Hn.
  { clear l. induction n as [|n IH]; intros l Hl.
    - destruct l; [done | simpl in Hl; lia].
    - destruct l as [|a [|b [|c [|d r]]]]; try done.
      apply H4, IH. simpl in *. lia. }
  by apply (Hn (length l)).
Qed.

Lemma string_append_empty (s : string) : "" +:+ s = s.
Proof. reflexivity. Qed.

Lemma string_append_cons c (s1 s2 : string) :
  String c s1 +:+ s2 = String c (s1 +:+ s2).
Proof. reflexivity. Qed.

Lemma list_ascii_of_string_app (s1 s2 : string) :
  String.list_ascii_of_string (s1 +:+ s2) =
  String.list_ascii_of_string s1 ++ String.list_ascii_of_string s2.
Proof. induction s1 as [|c s1 IH]; simpl; [done | by rewrite IH]. Qed.

Lemma digits_of_uint (d : Decimal.uint) :
  Forall (fun c => is_digit c = true)
    (String.list_ascii_of_string (NilEmpty.string_of_uint d)).
Proof. induction d; simpl; constructor; done. Qed.

Lemma digits_of_N (n : N) :
  Forall (fun c => is_digit c = true)
    (String.list_ascii_of_string (NilZero.string_of_uint (N.to_uint n))).
Proof.
  unfold NilZero.string_of_uint.
  destruct (N.to_uint n) eqn:Hd; try (rewrite <- Hd; apply digits_of_uint).
  repeat constructor.
Qed.

Lemma is_digit_not_comma c : is_digit c = true -> is_comma c = false.
Proof.
  unfold is_digit, is_comma. intros Hd.
  destruct (Ascii.eqb_spec c ","%char) as [->|]; [done | done].
Qed.

Lemma thousands_strip (l : list ascii) :
  Forall (fun c => is_comma c = false) l ->
  List.filter (fun c => negb (is_comma c)) (thousands l) = l.
Proof.
  induction l as [|a|a b|a b c|a b c d r IH] using thousands_ind; intros Hl.
  - done.
  - apply Forall_cons in Hl as [Ha _]. simpl. by rewrite Ha.
  - apply Forall_cons in Hl as [Ha Hl]. apply Forall_cons in Hl as [Hb _].
    simpl. by rewrite Ha, Hb.
  - apply Forall_cons in Hl as [Ha Hl]. apply Forall_cons in Hl as [Hb Hl].
    apply Forall_cons in Hl as [Hc _]. simpl. by rewrite Ha, Hb, Hc.
  - apply Forall_cons in Hl as [Ha Hl]. apply Forall_cons in Hl as [Hb Hl].
    apply Forall_cons in Hl as [Hc Hl].
    change (thousands (a :: b :: c :: d :: r))
      with (a :: b :: c :: ","%char :: thousands (d :: r)).
    cbn [List.filter]. rewrite Ha, Hb, Hc. cbn [negb].
    change (is_comma ","%char) with true. cbn [negb].
    by rewrite IH.
Qed.

Lemma digits_not_commas (n : N) :
  Forall (fun c => is_comma c = false)
    (rev (String.list_ascii_of_string (NilZero.string_of_uint (N.to_uint n)))).
Proof.
  apply Forall_forall. intros c Hc.
  apply list_elem_of_In, in_rev, list_elem_of_In in Hc.
  apply is_digit_not_comma.
  by apply (proj1 (Forall_forall _ _) (digits_of_N n)).
Qed.

Lemma strip_commas_group_digits (n : N) :
  strip_commas (group_digits (NilZero.string_of_uint (N.to_uint n))) =
  NilZero.string_of_uint (N.to_uint n).
Proof.
  unfold strip_commas, group_digits.
  rewrite String.list_ascii_of_string_of_list_ascii, List.filter_rev.
  rewrite thousands_strip by apply digits_not_commas.
  by rewrite rev_involutive, String.string_of_list_ascii_of_string.
Qed.

Lemma strip_commas_app (s1 s2 : string) :
  strip_commas (s1 +:+ s2) = strip_commas s1 +:+ strip_commas s2.
Proof.
  unfold strip_commas. rewrite list_ascii_of_string_app, List.filter_app.
  generalize (List.filter (fun c => negb (is_comma c))
                (String.list_ascii_of_string s1)).
  intros l. induction l as [|c l IH]; simpl; [done | by rewrite IH].
Qed.

Lemma strip_commas_format_tokens (tokens : Z) :
  strip_commas (_format_tokens tokens) = plain_decimal tokens.
Proof.
  unfold _format_tokens, plain_decimal.
  rewrite strip_commas_app, strip_commas_group_digits.
  by destruct (tokens <? 0)%Z.
Qed.

(** X1: taking the separators out of a formatted count leaves the decimal
    numeral of the count, sign included: the separator changes no digit and
    drops none. *)
Theorem format_tokens_strip_commas (tokens : Z) :
  strip_commas (_format_tokens tokens) = plain_decimal tokens.
Proof. apply strip_commas_format_tokens. Qed.

Lemma uint_of_N_digits (n : N) :
  NilZero.uint_of_string (NilZero.string_of_uint (N.to_uint n))
  = Some (N.to_uint n).
Proof.
  apply NilZero.usu. destruct n as [|p]; [done|].
  apply DecimalPos.Unsigned.to_uint_nonnil.
Qed.

Lemma first_digit_not_minus (n : N) :
  exists c s, NilZero.string_of_uint (N.to_uint n) = String c s /\
              c <> "-"%char.
Proof.
  pose proof (digits_of_N n) as Hd.
  assert (NilZero.string_of_uint (N.to_uint n) <> "") as Hne.
  { unfold NilZero.string_of_uint.
    destruct (N.to_uint n) eqn:Hu; try done.
    all: destruct n as [|p]; try done. }
  destruct (NilZero.string_of_uint (N.to_uint n)) as [|c s]; [done|].
  exists c, s. split; [done|]. intros ->.
  apply Forall_cons in Hd as [Hc _]. done.
Qed.

(** X2: a formatted count reads back as the count it was made from, so two
    different counts are never shown as the same text. *)
Theorem format_tokens_round_trip :
  (forall tokens, parse_count (_format_tokens tokens) = Some tokens) /\
  (forall tokens1 tokens2,
     _format_tokens tokens1 = _format_tokens tokens2 -> tokens1 = tokens2).
Proof.
  assert (forall tokens, parse_count (_format_tokens tokens) = Some tokens)
    as Hparse.
  { intros tokens. unfold parse_count.
    rewrite strip_commas_format_tokens. unfold plain_decimal.
    destruct (tokens <? 0)%Z eqn:Hsign.
    - rewrite string_append_cons, string_append_empty.
      rewrite uint_of_N_digits. simpl.
      rewrite DecimalN.Unsigned.of_to. f_equal. lia.
    - destruct (first_digit_not_minus (Z.abs_N tokens)) as (c & s & Hs & Hc).
      rewrite string_append_empty, Hs.
      assert (NilZero.uint_of_string (String c s)
              = Some (N.to_uint (Z.abs_N tokens))) as Hu
        by (rewrite <- Hs; apply uint_of_N_digits).
      assert ((fun d => Z.of_N (N.of_uint d)) <$>
                NilZero.uint_of_string (String c s) = Some tokens) as Hres.
      { rewrite Hu. simpl. rewrite DecimalN.Unsigned.of_to. f_equal. lia. }
      destruct c as [[] [] [] [] [] [] [] []]; try exact Hres.
      by destruct Hc. }
  split; [exact Hparse|].
  intros tokens1 tokens2 Heq.
  pose proof (Hparse tokens1) as H1. rewrite Heq, Hparse in H1. congruence.
Qed.

Lemma format_tokens_round_trip_witness :
  _format_tokens 1234567 = "1,234,567" /\
  parse_count "1,234,567" = Some 1234567 /\
  (_format_tokens 1234567 = _format_tokens (1234000 + 567) ->
   1234567 = 1234000 + 567).
Proof.
  split; [reflexivity|]. split.
  - exact (proj1 format_tokens_round_trip 1234567).
  - exact (proj2 format_tokens_round_trip 1234567 (1234000 + 567)).
Defined.

Lemma thousands_commas (l : list ascii) :
  Forall (fun c => is_comma c = false) l ->
  forall i c, thousands l !! i = Some c ->
              (is_comma c = true <-> i mod 4 = 3)%nat.
Proof.
  induction l as [|a|a b|a b c|a b c d r IH] using thousands_ind; intros Hl i x.
  - done.
  - apply Forall_cons in Hl as [Ha _].
    destruct i as [|i]; simpl; [intros [= <-] | done].
    rewrite Ha. by split.
  - apply Forall_cons in Hl as [Ha Hl]. apply Forall_cons in Hl as [Hb _].
    destruct i as [|[|i]]; simpl; try done; intros [= <-].
    + rewrite Ha. by split.
    + rewrite Hb. by split.
  - apply Forall_cons in Hl as [Ha Hl]. apply Forall_cons in Hl as [Hb Hl].
    apply Forall_cons in Hl as [Hc _].
    destruct i as [|[|[|i]]]; simpl; try done; intros [= <-].
    + rewrite Ha. by split.
    + rewrite Hb. by split.
    + rewrite Hc. by split.
  - apply Forall_cons in Hl as [Ha Hl]. apply Forall_cons in Hl as [Hb Hl].
    apply Forall_cons in Hl as [Hc Hl].
    change (thousands (a :: b :: c :: d :: r))
      with (a :: b :: c :: ","%char :: thousands (d :: r)).
    destruct i as [|[|[|[|i]]]].
    + intros [= <-]. rewrite Ha. by split.
    + intros [= <-]. rewrite Hb. by split.
    + intros [= <-]. rewrite Hc. by split.
    + intros [= <-]. by split.
    + intros Hx. change ((a :: b :: c :: ","%char :: thousands (d :: r))
                           !! S (S (S (S i))))
        with (thousands (d :: r) !! i) in Hx.
      rewrite (IH Hl i x Hx).
      replace (S (S (S (S i)))) with (i + 1 * 4)%nat by lia.
      by rewrite Nat.Div0.mod_add.
Qed.

Lemma thousands_length (l : list ascii) :
  length (thousands l) = (length l + (length l - 1) / 3)%nat.
Proof.
  induction l as [|a|a b|a b c|a b c d r IH] using thousands_ind; try done.
  change (thousands (a :: b :: c :: d :: r))
    with (a :: b :: c :: ","%char :: thousands (d :: r)).
  cbn [length]. rewrite IH. cbn [length].
  replace (S (S (S (S (length r)))) - 1)%nat with (length r + 1 * 3)%nat by lia.
  rewrite Nat.div_add by done.
  replace (S (length r) - 1)%nat with (length r) by lia. lia.
Qed.

Lemma length_list_ascii_of_string (s : string) :
  length (String.list_ascii_of_string s) = String.length s.
Proof. induction s as [|c s IH]; simpl; [done | by rewrite IH]. Qed.

(** X3: in the text of a non-negative count, counted from the right, every
    fourth character is a separator and no other character is; the text has
    one separator for every three digits after the first digit. *)
Theorem format_tokens_groups_of_three (tokens : Z) :
  0 <= tokens ->
  let shown := chars_from_right (_format_tokens tokens) in
  let digits := String.length (plain_decimal tokens) in
  (forall i c, shown !! i = Some c -> (c = ","%char <-> i mod 4 = 3)%nat) /\
  length shown = (digits + (digits - 1) / 3)%nat.
Proof.
  intros Hpos shown digits. subst shown digits.
  unfold _format_tokens, plain_decimal, chars_from_right, group_digits.
  assert ((tokens <? 0)%Z = false) as -> by lia.
  rewrite !string_append_empty.
  rewrite String.list_ascii_of_string_of_list_ascii, rev_involutive.
  split.
  - intros i c Hc.
    rewrite <- (thousands_commas _ (digits_not_commas (Z.abs_N tokens)) i c Hc).
    unfold is_comma. by rewrite Ascii.eqb_eq.
  - rewrite thousands_length, length_rev.
    by rewrite length_list_ascii_of_string.
Qed.

Lemma format_tokens_groups_of_three_witness :
  0 <= 1234567 /\
  chars_from_right (_format_tokens 1234567) !! 3%nat = Some ","%char /\
  length (chars_from_right (_format_tokens 1234567)) = 9%nat.
Proof.
  assert (0 <= 1234567) as Hpos by lia.
  destruct (format_tokens_groups_of_three 1234567 Hpos) as [Hcommas Hlength].
  split; [exact Hpos|]. split; [reflexivity | exact Hlength].
Defined.

(** ** The rows of the model breakdown *)

Section breakdown_facts.
Context {TokenCounter float WatchId : Type}.
Context `{!PyFloat float} `{!TokenCounterOps TokenCounter float WatchId}.
Implicit Types (token_counter : TokenCounter).
Implicit Types (items : list (ModelKey * ModelUsage.t)).
Implicit Types (rows : PyDict.t string (ToolResult.model_entry float)).

(** X4: a row of the breakdown is looked up by display key, and under one
    display key the row is the one of the last item of [model_usage] that
    has this display key; there is no row under a key that no item has.  So
    every model of [model_usage] finds a row under its display key. *)
Theorem model_breakdown_last_item_wins token_counter items :
  (forall key,
     PyDict.get key (model_breakdown_of token_counter items) =
     item_entry token_counter <$>
       last (filter (fun item => item_display_key item = key) items)) /\
  (forall item,
     item ∈ items ->
     is_Some (PyDict.get (item_display_key item)
                (model_breakdown_of token_counter items))).
Proof.
  assert (forall key,
     PyDict.get key (model_breakdown_of token_counter items) =
     item_entry token_counter <$>
       last (filter (fun item => item_display_key item = key) items)) as Hget.
  { intros key. unfold model_breakdown_of.
    rewrite get_foldl_add_model_breakdown_last. by destruct (last _). }
  split; [exact Hget|].
  intros item Hin. rewrite Hget. apply fmap_is_Some, last_is_Some.
  intros Hnil. eapply (filter_nil_not_elem_of _ _ item Hnil); done.
Qed.
End breakdown_facts.

Lemma model_breakdown_last_item_wins_witness :
  let items := collect_model_usage Sample.run PyDict.empty in
  let item := (("gpt-4o", Some "openai"),
               ModelUsage.mk "gpt-4o" (Some "openai") 200 80 280) in
  item ∈ items /\
  is_Some (PyDict.get "gpt-4o (openai)"
             (model_breakdown_of Sample.counter items)).
Proof.
  intros items item.
  assert (item ∈ items) as Hin by (right; left).
  split; [exact Hin|].
  exact (proj2 (model_breakdown_last_item_wins Sample.counter items) item Hin).
Defined.

Section dict_more_facts.
Context {K V : Type} `{EqDecision K}.
Implicit Types (d : list (K * V)) (k : K) (v : V).

Lemma get_Some_elem_of d k v : PyDict.get k d = Some v -> (k, v) ∈ d.
Proof.
  induction d as [|[k0 v0] d IH]; simpl; [done|].
  case_decide as Hk.
  - intros [= <-]. subst. left.
  - intros Hget. right. by apply IH.
Qed.

Lemma set_new d k v :
  k ∉ PyDict.keys d -> PyDict.set k v d = d ++ [(k, v)].
Proof.
  unfold PyDict.keys. induction d as [|[k0 v0] d IH]; simpl; [done|].
  rewrite not_elem_of_cons. intros [Hne Hk].
  rewrite decide_False by done. by rewrite IH.
Qed.
End dict_more_facts.

Lemma NoDup_fmap_inj_on {A B : Type} (f : A -> B) (l : list A) x y :
  NoDup (f <$> l) -> x ∈ l -> y ∈ l -> f x = f y -> x = y.
Proof.
  induction l as [|a l IH]; intros Hnd Hx Hy Hf; [by apply elem_of_nil in Hx|].
  rewrite fmap_cons in Hnd. apply NoDup_cons in Hnd as [Ha Hnd].
  apply elem_of_cons in Hx as [->|Hx]; apply elem_of_cons in Hy as [->|Hy].
  - done.
  - destruct Ha. rewrite Hf. by apply list_elem_of_fmap_2.
  - destruct Ha. rewrite <- Hf. by apply list_elem_of_fmap_2.
  - by apply IH.
Qed.

(** Fewer distinct values than elements. *)
Lemma NoDup_subset_length_lt {A : Type} (l k : list A) :
  NoDup l -> (forall x, x ∈ l -> x ∈ k) -> ~ NoDup k ->
  (length l < length k)%nat.
Proof.
  intros Hl Hsub Hk.
  pose proof (NoDup_submseteq l k Hl Hsub) as Hle.
  destruct (decide (length k <= length l)%nat) as [Hge|]; [|lia].
  destruct Hk. rewrite <- (submseteq_length_Permutation l k Hle Hge). done.
Qed.

Section breakdown_size_facts.
Context {TokenCounter float WatchId : Type}.
Context `{!PyFloat float} `{!TokenCounterOps TokenCounter float WatchId}.
Implicit Types (token_counter : TokenCounter).
Implicit Types (items : list (ModelKey * ModelUsage.t)).
Implicit Types (rows : list (string * ToolResult.model_entry float)).

Lemma NoDup_keys_foldl_add_model_breakdown token_counter items rows :
  NoDup (PyDict.keys rows) ->
  NoDup (PyDict.keys (foldl (add_model_breakdown token_counter) rows items)).
Proof.
  revert rows. induction items as [|item items IH]; intros rows Hrows; [done|].
  cbn [foldl]. apply IH. rewrite add_model_breakdown_set.
  by apply NoDup_keys_set.
Qed.

Lemma keys_model_breakdown_of token_counter items key :
  key ∈ PyDict.keys (model_breakdown_of token_counter items) ->
  key ∈ item_display_key <$> items.
Proof.
  intros Hkey.
  destruct (PyDict.get key (model_breakdown_of token_counter items)) eqn:Hget.
  - unfold model_breakdown_of in Hget.
    rewrite get_foldl_add_model_breakdown_last in Hget.
    destruct (last _) as [item|] eqn:Hlast; [|done].
    apply last_Some_elem_of, list_elem_of_filter in Hlast as [<- Hin].
    by apply list_elem_of_fmap_2.
  - by apply get_None_keys in Hget.
Qed.

Lemma model_breakdown_shorter token_counter items item1 item2 :
  item1 ∈ items -> item2 ∈ items -> item1 <> item2 ->
  item_display_key item1 = item_display_key item2 ->
  (length (model_breakdown_of token_counter items) < length items)%nat.
Proof.
  intros Hin1 Hin2 Hne Hkey.
  rewrite <- (length_fmap fst (model_breakdown_of token_counter items)).
  rewrite <- (length_fmap item_display_key items).
  apply NoDup_subset_length_lt.
  - apply (NoDup_keys_foldl_add_model_breakdown token_counter items []).
    constructor.
  - apply keys_model_breakdown_of.
  - intros Hnd. apply Hne.
    by apply (NoDup_fmap_inj_on item_display_key items).
Qed.

(** X5: when the subtree records one model both at a node without model
    information and at a node whose provider name is the empty string,
    [model_usage] holds two entries for it but both are written under the
    bare model name: the breakdown has fewer rows than [model_usage] has
    entries. *)
Theorem model_breakdown_merges_unnamed_providers token_counter
    (node n1 n2 : TokenNode) (model : string) :
  n1 ∈ nodes node -> n2 ∈ nodes node ->
  model_name (usage n1) = Some model -> model_name (usage n2) = Some model ->
  model <> "" ->
  usage_provider (usage n1) = None -> usage_provider (usage n2) = Some "" ->
  let model_usage := collect_model_usage node PyDict.empty in
  is_Some (PyDict.get (model, None) model_usage) /\
  is_Some (PyDict.get (model, Some "") model_usage) /\
  display_key model None = model /\
  display_key model (Some "") = model /\
  (length (model_breakdown_of token_counter model_usage)
   < length model_usage)%nat.
Proof.
  intros Hn1 Hn2 Hm1 Hm2 Hne Hp1 Hp2 model_usage. subst model_usage.
  assert (forall n p, n ∈ nodes node -> model_name (usage n) = Some model ->
                      usage_provider (usage n) = p ->
                      is_Some (PyDict.get (model, p)
                                 (collect_model_usage node PyDict.empty)))
    as Hentry.
  { intros n p Hn Hm Hp. rewrite get_collect_model_usage.
    destruct (filter _ (nodes node)) as [|n' ms] eqn:Hf; [|by eexists].
    exfalso. eapply (filter_nil_not_elem_of _ _ n Hf); [|done].
    by apply model_key_of_Some. }
  destruct (Hentry n1 None Hn1 Hm1 Hp1) as [e1 He1].
  destruct (Hentry n2 (Some "") Hn2 Hm2 Hp2) as [e2 He2].
  split; [by eexists|]. split; [by eexists|]. split; [done|]. split; [done|].
  apply (model_breakdown_shorter token_counter _
           ((model, None), e1) ((model, Some ""), e2)).
  - by apply get_Some_elem_of.
  - by apply get_Some_elem_of.
  - congruence.
  - done.
Qed.

(** X6: when no two entries of [model_usage] have the same display key, the
    breakdown has exactly one row per entry, in the order of the entries,
    each under the display key of its entry. *)
Theorem model_breakdown_one_row_per_model token_counter items :
  NoDup (item_display_key <$> items) ->
  model_breakdown_of token_counter items =
  (fun item => (item_display_key item, item_entry token_counter item)) <$> items.
Proof.
  unfold model_breakdown_of.
  assert (forall rows,
            NoDup (PyDict.keys rows ++ (item_display_key <$> items)) ->
            foldl (add_model_breakdown token_counter) rows items =
            rows ++ ((fun item => (item_display_key item,
                                   item_entry token_counter item)) <$> items))
    as Hgen.
  { induction items as [|item items IH]; intros rows Hnd.
    - by rewrite app_nil_r.
    - cbn [foldl]. rewrite add_model_breakdown_set, fmap_cons.
      rewrite fmap_cons in Hnd.
      assert (item_display_key item ∉ PyDict.keys rows) as Hnew.
      { apply NoDup_app in Hnd as (_ & Hdisj & _).
        intros Hin. apply (Hdisj _ Hin). left. }
      rewrite (set_new rows _ _ Hnew), IH.
      + by rewrite <- app_assoc.
      + unfold PyDict.keys in *. rewrite fmap_app. simpl.
        by rewrite <- app_assoc. }
  intros Hnd. by rewrite Hgen.
Qed.
End breakdown_size_facts.

Lemma model_breakdown_merges_unnamed_providers_witness :
  let model_usage := collect_model_usage SampleMerge.run PyDict.empty in
  SampleMerge.call_a ∈ nodes SampleMerge.run /\
  SampleMerge.call_b ∈ nodes SampleMerge.run /\
  length model_usage = 2%nat /\
  (length (model_breakdown_of Sample.counter model_usage)
   < length model_usage)%nat.
Proof.
  intros model_usage.
  assert (SampleMerge.call_a ∈ nodes SampleMerge.run) as Ha by (right; left).
  assert (SampleMerge.call_b ∈ nodes SampleMerge.run) as Hb
    by (right; right; left).
  assert ("gpt-4o" <> "") as Hne by done.
  destruct (model_breakdown_merges_unnamed_providers Sample.counter
              SampleMerge.run SampleMerge.call_a SampleMerge.call_b "gpt-4o"
              Ha Hb eq_refl eq_refl Hne eq_refl eq_refl)
    as (_ & _ & _ & _ & Hlt).
  split; [exact Ha|]. split; [exact Hb|]. split; [reflexivity | exact Hlt].
Defined.

Lemma model_breakdown_one_row_per_model_witness :
  let items := collect_model_usage Sample.run PyDict.empty in
  NoDup (item_display_key <$> items) /\
  PyDict.keys (model_breakdown_of Sample.counter items)
    = ["claude-sonnet (anthropic)"; "gpt-4o (openai)"].
Proof.
  intros items.
  assert (NoDup (item_display_key <$> items)) as Hnd.
  { apply NoDup_cons. split; [|apply NoDup_singleton].
    intros Hin. apply list_elem_of_singleton in Hin. discriminate Hin. }
  split; [exact Hnd|].
  by rewrite (model_breakdown_one_row_per_model Sample.counter items Hnd).
Defined.

(** ** What the traversal counts *)

Section sum_entries_facts.
Context (f : ModelUsage.t -> Z) (g : TokenUsage -> Z).
Context (f_fresh : forall k, f (fresh_entry k) = 0).
Context (f_add : forall e u, f (add_usage e u) = f e + g u).
Implicit Types (d : list (ModelKey * ModelUsage.t)).

Lemma sum_entries_set d k e :
  sum_entries f (PyDict.set k e d) =
  sum_entries f d - from_option f 0 (PyDict.get k d) + f e.
Proof.
  unfold sum_entries. induction d as [|[k0 e0] d IH]; simpl; [lia|].
  case_decide; simpl; [lia|]. rewrite IH. lia.
Qed.

Lemma sum_entries_collect_own_usage node d :
  sum_entries f (collect_own_usage node d) =
  sum_entries f d + (if decide (names_model node) then g (usage node) else 0).
Proof.
  rewrite collect_own_usage_key. unfold model_key_of.
  destruct (decide (names_model node)) as [Hn|Hn]; unfold names_model in Hn.
  - rewrite Hn.
    destruct (model_name (usage node)) as [m|] eqn:Hm; [|done].
    cbn [fmap option_fmap option_map].
    rewrite sum_entries_set. unfold PyDict.mem.
    destruct (PyDict.get (m, usage_provider (usage node)) d) as [e|] eqn:Hg.
    + rewrite Hg. simpl. rewrite f_add. lia.
    + rewrite get_set, decide_True by done. rewrite sum_entries_set, Hg.
      simpl. rewrite f_add, !f_fresh. lia.
  - apply not_true_is_false in Hn. rewrite Hn. lia.
Qed.

Lemma sum_entries_foldl_collect_own_usage (l : list TokenNode) d :
  sum_entries f (foldl (fun acc x => collect_own_usage x acc) d l) =
  sum_entries f d + sum_of g (filter names_model l).
Proof.
  revert d. induction l as [|node l IH]; intros d; simpl; [lia|].
  rewrite IH, sum_entries_collect_own_usage, filter_cons.
  case_decide; simpl; lia.
Qed.
End sum_entries_facts.

(** X7: added over all entries of [model_usage], each counter equals the
    same counter added over the nodes of the subtree whose usage names a
    model: every such node is counted once and nothing else is. *)
Theorem collect_model_usage_conserves_counts (node : TokenNode) :
  let model_usage := collect_model_usage node PyDict.empty in
  let counted := filter names_model (nodes node) in
  sum_entries ModelUsage.input_tokens model_usage
    = sum_of input_tokens counted /\
  sum_entries ModelUsage.output_tokens model_usage
    = sum_of output_tokens counted /\
  sum_entries ModelUsage.total_tokens model_usage
    = sum_of total_tokens counted.
Proof.
  intros model_usage counted. subst model_usage counted.
  rewrite collect_model_usage_nodes.
  split_and!.
  - by rewrite (sum_entries_foldl_collect_own_usage _ input_tokens).
  - by rewrite (sum_entries_foldl_collect_own_usage _ output_tokens).
  - by rewrite (sum_entries_foldl_collect_own_usage _ total_tokens).
Qed.

Lemma sum_of_usages f (l : list TokenNode) :
  sum_of f l = foldr (fun u acc => f u + acc) 0 (usage <$> l).
Proof. unfold sum_of. induction l as [|n l IH]; simpl; [done | by rewrite IH]. Qed.

Lemma sum_usages_Permutation (f : TokenUsage -> Z) (l1 l2 : list TokenUsage) :
  l1 ≡ₚ l2 ->
  foldr (fun u acc => f u + acc) 0 l1 = foldr (fun u acc => f u + acc) 0 l2.
Proof. induction 1; simpl; lia. Qed.

Lemma filter_usage_fmap (P : TokenUsage -> Prop) `{!forall u, Decision (P u)}
    (l : list TokenNode) :
  filter P (usage <$> l) = usage <$> filter (fun n => P (usage n)) l.
Proof.
  induction l as [|n l IH]; [done|].
  rewrite fmap_cons, !filter_cons, IH. by case_decide.
Qed.

(** X8: the entry found under a key depends only on the usage records that
    the subtree contains, not on how its nodes are nested or ordered: two
    trees whose nodes carry the same usage records, in any arrangement, give
    the same entry under every key. *)
Theorem collect_model_usage_shape_independent (node1 node2 : TokenNode) :
  usage <$> nodes node1 ≡ₚ usage <$> nodes node2 ->
  forall k,
    PyDict.get k (collect_model_usage node1 PyDict.empty) =
    PyDict.get k (collect_model_usage node2 PyDict.empty).
Proof.
  intros Hperm k. rewrite !get_collect_model_usage.
  assert (usage <$> filter (fun n => model_key_of (usage n) = Some k) (nodes node1)
          ≡ₚ usage <$> filter (fun n => model_key_of (usage n) = Some k)
                         (nodes node2)) as Hf.
  { trans (filter (fun u => model_key_of u = Some k) (usage <$> nodes node1));
      [by rewrite filter_usage_fmap|].
    trans (filter (fun u => model_key_of u = Some k) (usage <$> nodes node2));
      [by rewrite Hperm | by rewrite filter_usage_fmap]. }
  destruct (filter _ (nodes node1)) as [|a l1] eqn:H1;
    destruct (filter _ (nodes node2)) as [|b l2] eqn:H2.
  - done.
  - by apply Permutation_nil_cons in Hf.
  - symmetry in Hf. by apply Permutation_nil_cons in Hf.
  - unfold expected_entry. rewrite !sum_of_usages.
    by rewrite !(sum_usages_Permutation _ _ _ Hf).
Qed.

Lemma collect_model_usage_shape_independent_witness :
  let k := ("gpt-4o", Some "openai") in
  usage <$> nodes Sample.finder ≡ₚ usage <$> nodes SampleChain.run /\
  nodes Sample.finder <> nodes SampleChain.run /\
  PyDict.get k (collect_model_usage Sample.finder PyDict.empty) =
  PyDict.get k (collect_model_usage SampleChain.run PyDict.empty).
Proof.
  intros k.
  assert (usage <$> nodes Sample.finder ≡ₚ usage <$> nodes SampleChain.run)
    as Hperm.
  { change (usage <$> nodes Sample.finder)
      with ([Sample.no_usage; usage Sample.call_1] ++ [usage Sample.call_2]).
    change (usage <$> nodes SampleChain.run)
      with ([usage Sample.call_2] ++ [Sample.no_usage; usage Sample.call_1]).
    apply Permutation_app_comm. }
  split; [exact Hperm|]. split; [discriminate|].
  exact (collect_model_usage_shape_independent _ _ Hperm k).
Defined.

Lemma keys_collect_own_usage node (d : list (ModelKey * ModelUsage.t)) :
  PyDict.keys (collect_own_usage node d) =
  match model_key_of (usage node) with
  | Some k => if decide (k ∈ PyDict.keys d)
              then PyDict.keys d else PyDict.keys d ++ [k]
  | None => PyDict.keys d
  end.
Proof.
  rewrite collect_own_usage_key.
  destruct (model_key_of (usage node)) as [k|]; [|done].
  unfold PyDict.mem. destruct (PyDict.get k d) as [e|] eqn:Hg.
  - rewrite keys_set. unfold PyDict.mem. rewrite Hg.
    rewrite decide_True; [done|].
    destruct (decide (k ∈ PyDict.keys d)) as [|Hk]; [done|].
    apply get_None_keys in Hk. congruence.
  - rewrite keys_set. unfold PyDict.mem.
    rewrite get_set, decide_True by done.
    rewrite keys_set. unfold PyDict.mem. rewrite Hg.
    rewrite decide_False; [done|]. by apply get_None_keys.
Qed.

Lemma keys_foldl_collect_own_usage (l : list TokenNode)
    (d : list (ModelKey * ModelUsage.t)) :
  PyDict.keys (foldl (fun acc x => collect_own_usage x acc) d l) =
  foldl (fun seen k => if decide (k ∈ seen) then seen else seen ++ [k])
    (PyDict.keys d) (omap (fun n => model_key_of (usage n)) l).
Proof.
  revert d. induction l as [|n l IH]; intros d; [done|].
  cbn [foldl omap list_omap]. rewrite IH, keys_collect_own_usage.
  by destruct (model_key_of (usage n)).
Qed.

(** X9: the entries of [model_usage] stand in the order in which the
    traversal first meets their keys: a node before its children, the
    children from first to last. *)
Theorem collect_model_usage_key_order (node : TokenNode) :
  PyDict.keys (collect_model_usage node PyDict.empty) =
  first_occurrences (omap (fun n => model_key_of (usage n)) (nodes node)).
Proof.
  rewrite collect_model_usage_nodes. apply keys_foldl_collect_own_usage.
Qed.

(** ** Pausing and resuming *)

Lemma row_data_set_all_visible v p :
  row_data (Progress.set_all_visible v p) = row_data p.
Proof.
  unfold row_data. destruct p as [st ts ix]. simpl.
  rewrite map_map. by apply map_ext.
Qed.

Lemma visible_set_all_visible v p :
  Forall (fun k => Progress.visible k = v)
    (Progress.tasks (Progress.set_all_visible v p)).
Proof.
  destruct p as [st ts ix]. simpl.
  induction ts as [|k ts IH]; constructor; done.
Qed.

Section pause_more_facts.
Context {TokenCounter float WatchId : Type}.
Context `{!PyFloat float} `{!TokenCounterOps TokenCounter float WatchId}.
Implicit Types (self : Display.t TokenCounter WatchId).

(** X10: pausing a paused display and resuming a display that is not
    paused change nothing, so [pause] twice is [pause] once and [resume]
    twice is [resume] once; and whatever the body does and however the
    scope was entered, a display that leaves a [paused()] scope is not
    flagged paused. *)
Theorem pause_and_resume_idempotent self :
  pause (pause self) = pause self /\
  resume (resume self) = resume self /\
  (Display._paused self = true -> pause self = self) /\
  (Display._paused self = false -> resume self = self) /\
  (forall (A : Type)
          (body : Display.t TokenCounter WatchId ->
                  outcome A * Display.t TokenCounter WatchId),
     Display._paused (paused body self).2 = false).
Proof.
  split_and!.
  - unfold pause. destruct (Display._paused self) eqn:Hp; simpl.
    + by rewrite Hp.
    + done.
  - unfold resume. destruct (Display._paused self) eqn:Hp; simpl.
    + done.
    + by rewrite Hp.
  - intros Hp. unfold pause. by rewrite Hp.
  - intros Hp. unfold resume. by rewrite Hp.
  - intros A body. unfold paused, try_finally.
    destruct (body (pause self)) as [result inside]. simpl.
    unfold resume. by destruct (Display._paused inside) eqn:Hp.
Qed.

(** X11: [pause] and [resume] change no row: the ids, the order and the
    texts of the tasks, the id of the total task and the index of the next
    task stay as they are.  After [pause] followed by [resume] the display
    is not flagged paused, its live view runs and every task is visible,
    whatever the state before. *)
Theorem pause_then_resume_shows_all_rows self :
  (row_data (Display._progress (pause self)) = row_data (Display._progress self) /\
   Display._total_task_id (pause self) = Display._total_task_id self /\
   Progress._task_index (Display._progress (pause self))
     = Progress._task_index (Display._progress self)) /\
  (row_data (Display._progress (resume self)) = row_data (Display._progress self) /\
   Display._total_task_id (resume self) = Display._total_task_id self /\
   Progress._task_index (Display._progress (resume self))
     = Progress._task_index (Display._progress self)) /\
  Display._paused (resume (pause self)) = false /\
  Progress.started (Display._progress (resume (pause self))) = true /\
  Forall (fun k => Progress.visible k = true)
    (Progress.tasks (Display._progress (resume (pause self)))).
Proof.
  split_and!.
  - unfold pause. destruct (Display._paused self); [done|]. simpl.
    apply (row_data_set_all_visible false).
  - unfold pause. by destruct (Display._paused self).
  - unfold pause. by destruct (Display._paused self).
  - unfold resume. destruct (Display._paused self); [|done]. simpl.
    apply (row_data_set_all_visible true).
  - unfold resume. by destruct (Display._paused self).
  - unfold resume. by destruct (Display._paused self).
  - unfold pause, resume. by destruct (Display._paused self) eqn:Hp; simpl;
      rewrite ?Hp.
  - unfold pause, resume. by destruct (Display._paused self) eqn:Hp; simpl;
      rewrite ?Hp.
  - unfold pause, resume. destruct (Display._paused self) eqn:Hp; simpl;
      rewrite ?Hp; simpl.
    + apply (visible_set_all_visible true).
    + apply (visible_set_all_visible true
               (Progress.stop (Progress.set_all_visible false _))).
Qed.
End pause_more_facts.

Lemma pause_and_resume_idempotent_witness :
  let running := start SampleRun.display in
  Display._paused running = false /\
  resume running = running /\
  Display._paused (pause running) = true /\
  pause (pause running) = pause running.
Proof.
  intros running.
  destruct (pause_and_resume_idempotent running)
    as (Hpause & _ & _ & Hresume & _).
  split; [reflexivity|]. split; [exact (Hresume eq_refl)|].
  split; [reflexivity | exact Hpause].
Defined.

(** ** The callback and the rows *)

Lemma has_task_ids i p q :
  map Progress.id (Progress.tasks p) = map Progress.id (Progress.tasks q) ->
  Progress.has_task i p = Progress.has_task i q.
Proof.
  unfold Progress.has_task. generalize (Progress.tasks p) (Progress.tasks q).
  intros l. induction l as [|k l IH]; intros [|k' l'] Hids; try done.
  simpl in *. injection Hids as Hid Hids. by rewrite Hid, (IH l').
Qed.

Lemma update_Some task_id node_info tokens cost p p' :
  Progress.update task_id node_info tokens cost p = Some p' ->
  exists i,
    task_id = Some i /\ Progress.has_task i p = true /\
    Progress.started p' = Progress.started p /\
    Progress._task_index p' = Progress._task_index p /\
    map Progress.id (Progress.tasks p') = map Progress.id (Progress.tasks p) /\
    map Progress.visible (Progress.tasks p')
      = map Progress.visible (Progress.tasks p) /\
    Progress.update task_id node_info tokens cost p' = Some p'.
Proof.
  unfold Progress.update. destruct task_id as [i|]; [|done].
  destruct (Progress.has_task i p) eqn:Hhas; [|done].
  intros [= <-]. exists i. simpl.
  assert (forall l : list Progress.task,
            map Progress.id
              (map (fun k => if Nat.eqb (Progress.id k) i
                             then Progress.mk_task (Progress.id k)
                                    (Progress.visible k) node_info tokens cost
                             else k) l)
            = map Progress.id l) as Hids.
  { intros l. rewrite map_map. apply map_ext. intros k.
    by destruct (Nat.eqb (Progress.id k) i). }
  split_and!; try done.
  - rewrite map_map. apply map_ext. intros k.
    by destruct (Nat.eqb (Progress.id k) i).
  - unfold Progress.has_task in *. simpl.
    assert (existsb (fun k => Nat.eqb (Progress.id k) i)
              (map (fun k => if Nat.eqb (Progress.id k) i
                             then Progress.mk_task (Progress.id k)
                                    (Progress.visible k) node_info tokens cost
                             else k) (Progress.tasks p)) = true) as ->.
    { rewrite <- Hhas. generalize (Progress.tasks p). intros l.
      induction l as [|k l IH]; simpl; [done|]. rewrite IH.
      by destruct (Nat.eqb (Progress.id k) i) eqn:Hk; simpl; rewrite Hk. }
    do 2 f_equal. rewrite map_map. apply map_ext. intros k.
    by destruct (Nat.eqb (Progress.id k) i) eqn:Hk; simpl; rewrite Hk.
Qed.

Section callback_more_facts.
Context {TokenCounter float WatchId : Type}.
Context `{!PyFloat float} `{!TokenCounterOps TokenCounter float WatchId}.
Implicit Types (self : Display.t TokenCounter WatchId).

Lemma on_token_update_unfold self node usage :
  _on_token_update self node usage =
  match Progress.update (Display._total_task_id self) "[bold]TOTAL"
          (_format_tokens
             (total_tokens
                (TokenSummary.usage (get_summary (Display.token_counter self)))))
          (_format_cost
             (TokenSummary.cost (get_summary (Display.token_counter self))))
          (Display._progress self) with
  | Some progress => (Returned tt, set_progress progress self)
  | None => (Raised "KeyError", self)
  end.
Proof. reflexivity. Qed.

(** X12: the callback touches the texts of rows only: the counter, the
    list of subscription ids, the pause flag, the id of the total task, the
    calls made to the counter, whether the live view runs, and the id and
    the visibility of every row stay as they are, so an update that arrives
    while the display is paused un-hides nothing.  A second callback right
    after the first changes nothing more, whatever its payload. *)
Theorem on_token_update_changes_texts_only self node usage :
  let after := (_on_token_update self node usage).2 in
  (Display.token_counter after = Display.token_counter self /\
   Display._watch_ids after = Display._watch_ids self /\
   Display._paused after = Display._paused self /\
   Display._total_task_id after = Display._total_task_id self /\
   Display.calls after = Display.calls self) /\
  (Progress.started (Display._progress after)
     = Progress.started (Display._progress self) /\
   map Progress.id (Progress.tasks (Display._progress after))
     = map Progress.id (Progress.tasks (Display._progress self)) /\
   map Progress.visible (Progress.tasks (Display._progress after))
     = map Progress.visible (Progress.tasks (Display._progress self))) /\
  (forall node' usage',
     _on_token_update after node' usage' = _on_token_update self node usage).
Proof.
  intros after. subst after. rewrite on_token_update_unfold.
  destruct (Progress.update _ _ _ _ (Display._progress self)) as [p'|] eqn:Hup.
  - apply update_Some in Hup
      as (i & Hid & Hhas & Hst & Hix & Hids & Hvis & Hagain).
    simpl. split_and!; try done.
    intros node' usage'. rewrite on_token_update_unfold. simpl.
    by rewrite Hagain.
  - simpl. split_and!; try done.
    intros node' usage'. rewrite on_token_update_unfold. by rewrite Hup.
Qed.

Lemma has_task_add_task a b c p :
  Progress.has_task (Progress.add_task a b c p).1 (Progress.add_task a b c p).2
  = true.
Proof.
  unfold Progress.has_task, Progress.add_task. simpl.
  rewrite existsb_app. simpl. rewrite Nat.eqb_refl. by rewrite orb_true_r.
Qed.

Lemma callback_returns_iff self node usage :
  total_task_known self <->
  (_on_token_update self node usage).1 = Returned tt.
Proof.
  rewrite on_token_update_unfold. unfold total_task_known, Progress.update.
  destruct (Display._total_task_id self) as [i|].
  - destruct (Progress.has_task i (Display._progress self)) eqn:Hhas; simpl.
    + split; [done|]. intros _. by exists i.
    + split; [|done]. intros (j & [= <-] & Hj). congruence.
  - split; [|done]. by intros (j & Hj & _).
Qed.

(** X13: the callback returns normally exactly when the display knows its
    total task, and raises [KeyError], changing nothing, otherwise.  [start]
    makes the total task known, and [stop], [pause], [resume] and the
    callback itself keep it known: once the display has been started no
    later notification fails, also not one that arrives after [stop].  On a
    display that was never started the callback raises. *)
Theorem on_token_update_returns_once_started :
  (forall self node usage,
     total_task_known self <->
     (_on_token_update self node usage).1 = Returned tt) /\
  (forall self node usage,
     ~ total_task_known self ->
     _on_token_update self node usage = (Raised "KeyError", self)) /\
  (forall self, total_task_known (start self)) /\
  (forall self,
     total_task_known self ->
     total_task_known (stop self) /\ total_task_known (pause self) /\
     total_task_known (resume self) /\
     forall node usage, total_task_known (_on_token_update self node usage).2) /\
  (forall (token_counter : TokenCounter) node usage,
     _on_token_update (__init__ token_counter) node usage
     = (Raised "KeyError", __init__ (WatchId:=WatchId) token_counter)).
Proof.
  split_and!.
  - apply callback_returns_iff.
  - intros self node usage Hunknown.
    pose proof (callback_returns_iff self node usage) as Hiff.
    rewrite on_token_update_unfold in *.
    destruct (Progress.update _ _ _ _ (Display._progress self)); [|done].
    destruct Hunknown. by apply Hiff.
  - intros self. unfold total_task_known, start.
    pose proof (has_task_add_task "[bold]TOTAL" "0" "$0.0000"
                  (Progress.start (Display._progress self))) as Hhas.
    destruct (Progress.add_task _ _ _ _) as [i p] eqn:Hadd. simpl in Hhas.
    exists i.
    destruct (_root (Display.token_counter self)) as [root|]; [|done].
    by destruct (watch _ _).
  - intros self (i & Hid & Hhas). split_and!.
    + exists i. split; [done|]. rewrite <- Hhas. by apply has_task_ids.
    + exists i. split; [unfold pause; by destruct (Display._paused self)|].
      rewrite <- Hhas. apply has_task_ids.
      unfold pause. destruct (Display._paused self); [done|]. simpl.
      rewrite map_map. by apply map_ext.
    + exists i. split; [unfold resume; by destruct (Display._paused self)|].
      rewrite <- Hhas. apply has_task_ids.
      unfold resume. destruct (Display._paused self); [|done]. simpl.
      rewrite map_map. by apply map_ext.
    + intros node usage. rewrite on_token_update_unfold.
      destruct (Progress.update _ _ _ _ (Display._progress self))
        as [p'|] eqn:Hup; [|by exists i].
      apply update_Some in Hup as (_ & _ & _ & _ & _ & Hids & _).
      exists i. split; [done|]. simpl.
      rewrite <- Hhas. by apply has_task_ids.
  - done.
Qed.
End callback_more_facts.

Lemma on_token_update_returns_once_started_witness :
  let stopped := stop (start SampleRun.display) in
  total_task_known stopped /\
  (_on_token_update stopped Sample.call_1 (usage Sample.call_1)).1 = Returned tt /\
  ~ total_task_known SampleRun.display /\
  _on_token_update SampleRun.display Sample.call_1 (usage Sample.call_1)
    = (Raised "KeyError", SampleRun.display).
Proof.
  intros stopped.
  destruct (on_token_update_returns_once_started (float:=SampleFloat.t))
    as (Hiff & Hraise & Hstart & Hkeep & _).
  assert (total_task_known stopped) as Hknown
    by apply (proj1 (Hkeep _ (Hstart SampleRun.display))).
  assert (~ total_task_known SampleRun.display) as Hunknown
    by (intros (i & Hid & _); discriminate Hid).
  split; [exact Hknown|].
  split; [exact (proj1 (Hiff stopped _ _) Hknown)|].
  split; [exact Hunknown | exact (Hraise _ _ _ Hunknown)].
Defined.

(** ** Restarting the display *)

Section restart_facts.
Context {TokenCounter float WatchId : Type}.
Context `{!PyFloat float} `{!TokenCounterOps TokenCounter float WatchId}.
Implicit Types (self : Display.t TokenCounter WatchId).

Lemma start_keeps_paused self :
  Display._paused (start self) = Display._paused self.
Proof.
  unfold start. destruct (Progress.add_task _ _ _ _) as [i p].
  destruct (_root (Display.token_counter self)) as [root|]; [|done].
  by destruct (watch _ _).
Qed.

Lemma start_starts_view self :
  Progress.started (Display._progress (start self)) = true.
Proof.
  unfold start. simpl.
  destruct (_root (Display.token_counter self)) as [root|]; [|done].
  by destruct (watch _ _).
Qed.

(** X14: neither [stop] nor [start] resets the pause flag.  So a display
    that is flagged paused and is started (again) runs its live view, and
    [pause] does not stop it: it changes nothing until [resume] has been
    called. *)
Theorem start_keeps_pause_flag self :
  Display._paused (stop self) = Display._paused self /\
  Display._paused (start self) = Display._paused self /\
  (Display._paused self = true ->
   pause (start self) = start self /\
   pause (start (stop self)) = start (stop self) /\
   Progress.started (Display._progress (pause (start self))) = true).
Proof.
  split; [done|]. split; [apply start_keeps_paused|].
  intros Hpaused.
  assert (forall s, Display._paused s = true -> pause (start s) = start s)
    as Hnoop.
  { intros s Hs. unfold pause. by rewrite start_keeps_paused, Hs. }
  split; [by apply Hnoop|]. split; [by apply Hnoop|].
  rewrite Hnoop by done. apply start_starts_view.
Qed.
End restart_facts.

Lemma start_keeps_pause_flag_witness :
  let stopped := stop (pause (start SampleRun.display)) in
  Display._paused stopped = true /\
  pause (start stopped) = start stopped /\
  Progress.started (Display._progress (pause (start stopped))) = true.
Proof.
  intros stopped.
  assert (Display._paused stopped = true) as Hpaused by reflexivity.
  destruct (start_keeps_pause_flag (float:=SampleFloat.t) stopped)
    as (_ & _ & Hnoop).
  destruct (Hnoop Hpaused) as (Hsame & _ & Hruns).
  split; [exact Hpaused|]. split; [exact Hsame | exact Hruns].
Defined.

Section repeated_start_facts.
Context {TokenCounter float WatchId : Type}.
Context `{!PyFloat float} `{!TokenCounterOps TokenCounter float WatchId}.
Implicit Types (self : Display.t TokenCounter WatchId).

Lemma start_adds_one_task self :
  length (Progress.tasks (Display._progress (start self)))
  = S (length (Progress.tasks (Display._progress self))).
Proof.
  unfold start. simpl.
  destruct (_root (Display.token_counter self)) as [root|].
  - destruct (watch _ _). simpl. rewrite length_app. simpl. lia.
  - simpl. rewrite length_app. simpl. lia.
Qed.

(** X15: [start] is not idempotent.  On a counter that keeps its root when a
    watch is registered, [n] calls of [start] register [n] watches, all on
    the root with threshold 1 and a throttle of 100 ms, record [n] more ids
    and add [n] more rows; one [stop] afterwards passes every recorded id
    to [unwatch] and empties the list. *)
Theorem repeated_start_accumulates (n : nat) self root :
  (forall counter args, _root (watch counter args).2 = _root counter) ->
  _root (Display.token_counter self) = Some root ->
  let started := Nat.iter n start self in
  Display.calls started =
    Display.calls self ++
    replicate n (CallWatch (WatchArgs.mk bound_on_token_update root 1 100)) /\
  length (Display._watch_ids started) = (length (Display._watch_ids self) + n)%nat /\
  length (Progress.tasks (Display._progress started))
    = (length (Progress.tasks (Display._progress self)) + n)%nat /\
  Display._watch_ids (stop started) = [] /\
  Display.calls (stop started) =
    Display.calls started ++ map CallUnwatch (Display._watch_ids started).
Proof.
  intros Hstable Hroot started. subst started.
  assert (_root (Display.token_counter (Nat.iter n start self)) = Some root /\
          Display.calls (Nat.iter n start self) =
            Display.calls self ++
            replicate n (CallWatch (WatchArgs.mk bound_on_token_update root 1 100)) /\
          length (Display._watch_ids (Nat.iter n start self))
            = (length (Display._watch_ids self) + n)%nat /\
          length (Progress.tasks (Display._progress (Nat.iter n start self)))
            = (length (Progress.tasks (Display._progress self)) + n)%nat)
    as (_ & Hcalls & Hids & Htasks).
  { induction n as [|n (IHroot & IHcalls & IHids & IHtasks)].
    - simpl. rewrite app_nil_r. split_and!; [done | done | lia | lia].
    - change (Nat.iter (S n) start self) with (start (Nat.iter n start self)).
      pose proof (start_with_root _ root IHroot) as Hstart.
      cbv zeta in Hstart. split_and!.
      + rewrite Hstart. simpl. by rewrite Hstable.
      + rewrite Hstart. cbn [Display.calls].
        by rewrite IHcalls, replicate_S_end, app_assoc.
      + rewrite Hstart. simpl. rewrite length_app, IHids. simpl. lia.
      + rewrite start_adds_one_task, IHtasks. lia. }
  split_and!; done.
Qed.
End repeated_start_facts.

Lemma repeated_start_accumulates_witness :
  let started := Nat.iter 2 start SampleRun.display in
  (forall counter args,
     _root (SampleCounter.watch counter args).2 = _root counter) /\
  _root (Display.token_counter SampleRun.display) = Some Sample.run /\
  Display._watch_ids started = [0%nat; 1%nat] /\
  length (Progress.tasks (Display._progress started)) = 2%nat /\
  Display.calls (stop started) =
    Display.calls started ++ [CallUnwatch 0%nat; CallUnwatch 1%nat].
Proof.
  intros started.
  assert (forall counter args,
            _root (watch (TokenCounter:=SampleCounter.t) counter args).2
            = _root counter) as Hstable by done.
  assert (_root (Display.token_counter SampleRun.display) = Some Sample.run)
    as Hroot by reflexivity.
  destruct (repeated_start_accumulates 2 SampleRun.display Sample.run
              Hstable Hroot) as (_ & _ & Htasks & _ & Hstop).
  split; [exact Hstable|]. split; [exact Hroot|]. split; [reflexivity|].
  split; [exact Htasks | exact Hstop].
Defined.
